(** * ConnectifyVPN: database lifecycle and migration orchestration

    A shallow embedding of [src/core/database.py] (class [DatabaseManager])
    and of [scripts/migrate.py] (class [MigrationManager]), with the
    properties of the connection supervisor, the seed loader and the
    backup/restore orchestrator stated over that embedding.

    Python objects are modelled by records, dictionaries by [gmap string _],
    raised exceptions by the [Raise] constructor of [result].  Everything the
    code obtains from outside the process (the two backends, the clock, the
    file system, the spawned utilities, the terminal) is an explicit oracle
    argument, so every statement below is quantified over the outcomes of
    those calls. *)

From Stdlib Require Import ZArith.
From stdpp Require Import base option strings gmap list pretty.

Open Scope Z_scope.
Open Scope string_scope.

(** ** Python values, exceptions and results *)

Module Py.

(** Python floats are only copied around by the modelled code (prices from
    the settings into the seed rows); they are carried as their text. *)
Record float := { float_repr : string }.

Inductive pyval :=
| PNone
| PInt (z : Z)
| PStr (s : string)
| PFloat (f : float).

#[global] Instance float_eq_dec : EqDecision float.
Proof. solve_decision. Defined.
#[global] Instance pyval_eq_dec : EqDecision pyval.
Proof. solve_decision. Defined.

(** The exception classes that the modelled code can meet.  All of them
    derive from [Exception] except the last three, which derive from
    [BaseException] only and are therefore not caught by [except Exception]. *)
Inductive exn :=
| NameError (name : string)          (* name '<name>' is not defined *)
| AttributeError (msg : string)
| TypeError (msg : string)
| UnicodeDecodeError (msg : string)
| Exception_ (msg : string)          (* raise Exception(msg) *)
| DriverError (msg : string)         (* an Exception subclass raised by a backend driver *)
| ObjectNotExecutableError (target : string)
                                     (* SQLAlchemy refusing to execute a plain str *)
| CancelledError
| KeyboardInterrupt
| SystemExit (code : Z).

#[global] Instance exn_eq_dec : EqDecision exn.
Proof. solve_decision. Defined.

Definition is_Exception (e : exn) : bool :=
  match e with
  | CancelledError | KeyboardInterrupt | SystemExit _ => false
  | _ => true
  end.

Inductive result (A : Type) :=
| Return (a : A)
| Raise (e : exn).
Arguments Return {A} a.
Arguments Raise {A} e.

Definition rbind {A B} (r : result A) (k : A -> result B) : result B :=
  match r with
  | Return a => k a
  | Raise e => Raise e
  end.

Definition succeeded {A} (r : result A) : bool :=
  match r with
  | Return _ => true
  | Raise _ => false
  end.

(** What a call into a backend driver yields: a reply, or a fault raised by
    the driver (an [Exception] subclass such as a refused connection). *)
Inductive outcome (A : Type) :=
| Reply (a : A)
| Fault (msg : string).
Arguments Reply {A} a.
Arguments Fault {A} msg.

Definition await {A} (o : outcome A) : result A :=
  match o with
  | Reply a => Return a
  | Fault msg => Raise (DriverError msg)
  end.

(** [try: s = attempt(s)  except Exception: pass] on a piece of state [s]
    that the attempt only updates after its fallible call has returned. *)
Definition try_except_pass {S} (attempt : S -> result S) (s : S) : result S :=
  match attempt s with
  | Return s' => Return s'
  | Raise e => if is_Exception e then Return s else Raise e
  end.

(** [obj.attr] where [obj] may be [None]. *)
Definition getattr {A} (obj : option A) (attr : string) : result A :=
  match obj with
  | Some a => Return a
  | None => Raise (AttributeError ("'NoneType' object has no attribute '" ++ attr ++ "'"))
  end.

(** [repr(s)] of a [str], on its bytes: the delimiter is the double quote
    when [s] holds a single quote and no double quote, and the single quote
    otherwise; the delimiter and the backslash are escaped, and so are the
    control characters.  Bytes above 127 stand for printable characters,
    which [repr] leaves as they are. *)
Definition single_quote : Ascii.ascii := Ascii.ascii_of_nat 39.
Definition double_quote : Ascii.ascii := Ascii.ascii_of_nat 34.

Fixpoint occurs (c : Ascii.ascii) (s : string) : bool :=
  match s with
  | EmptyString => false
  | String c' s => bool_decide (c = c') || occurs c s
  end.

Definition hex_digit (n : N) : Ascii.ascii :=
  Ascii.ascii_of_N (if (n <? 10)%N then 48 + n else 87 + n)%N.

Definition repr_char (delimiter c : Ascii.ascii) : string :=
  let n := Ascii.N_of_ascii c in
  if bool_decide (c = delimiter \/ n = 92%N) then String (Ascii.ascii_of_nat 92) (String c "")
  else if bool_decide (n = 9%N) then "\t"
  else if bool_decide (n = 10%N) then "\n"
  else if bool_decide (n = 13%N) then "\r"
  else if bool_decide (n < 32 \/ n = 127)%N then
    "\x" ++ String (hex_digit (n / 16)) (String (hex_digit (n mod 16)) "")
  else String c "".

Fixpoint repr_chars (delimiter : Ascii.ascii) (s : string) : string :=
  match s with
  | EmptyString => EmptyString
  | String c s => repr_char delimiter c ++ repr_chars delimiter s
  end.

Definition repr (s : string) : string :=
  let delimiter :=
    if occurs single_quote s && negb (occurs double_quote s)
    then double_quote else single_quote in
  String delimiter (repr_chars delimiter s ++ String delimiter "").

(** [d.get(key, default)] *)
Definition dict_get {V} (d : gmap string V) (key : string) (default : V) : V :=
  match d !! key with
  | Some v => v
  | None => default
  end.

End Py.

Import Py.

#[global] Instance result_ret : MRet result := @Return.
#[global] Instance result_bind : MBind result := fun A B k r => rbind r k.

(** ** Settings ([src/core/config.py]) *)

Module Config.

Record DatabaseConfig := {
  db_host : string;
  db_port : Z;
  db_name : string;
  db_user : string;
  db_password : string;
  db_ssl_mode : string;
  db_pool_size : Z;
  db_max_overflow : Z
}.

Definition dsn (c : DatabaseConfig) : string :=
  "postgresql+asyncpg://" ++ db_user c ++ ":" ++ db_password c
  ++ "@" ++ db_host c ++ ":" ++ pretty (db_port c) ++ "/" ++ db_name c
  ++ "?ssl=" ++ db_ssl_mode c.

Record RedisConfig := {
  redis_host : string;
  redis_port : Z;
  redis_database : Z;
  redis_password : option string;
  redis_ssl : bool;
  redis_max_connections : Z
}.

Definition url (c : RedisConfig) : string :=
  let protocol := if redis_ssl c then "rediss" else "redis" in
  let auth := match redis_password c with
              | Some p => if bool_decide (p = "") then "" else ":" ++ p ++ "@"
              | None => ""
              end in
  protocol ++ "://" ++ auth ++ redis_host c ++ ":" ++ pretty (redis_port c)
  ++ "/" ++ pretty (redis_database c).

Record PaymentConfig := {
  trial_price : float;
  trial_days : Z;
  full_price : float;
  full_days : Z;
  trial_device_limit : Z;
  full_device_limit : Z
}.

Record ServerConfig := { debug : bool }.

Record Settings := {
  database : DatabaseConfig;
  redis : RedisConfig;
  payment : PaymentConfig;
  server : ServerConfig
}.

(** The same settings with another relational password. *)
Definition with_password (pw : string) (s : Settings) : Settings :=
  {| database :=
       {| db_host := db_host (database s); db_port := db_port (database s);
          db_name := db_name (database s); db_user := db_user (database s);
          db_password := pw; db_ssl_mode := db_ssl_mode (database s);
          db_pool_size := db_pool_size (database s);
          db_max_overflow := db_max_overflow (database s) |};
     redis := redis s; payment := payment s; server := server s |}.

(** The dataclass defaults, with a password as [Settings.validate] demands. *)
Definition default_settings : Settings :=
  {| database := {| db_host := "localhost"; db_port := 5432;
                    db_name := "connectifyvpn"; db_user := "postgres";
                    db_password := "s3cret"; db_ssl_mode := "prefer";
                    db_pool_size := 20; db_max_overflow := 30 |};
     redis := {| redis_host := "localhost"; redis_port := 6379;
                 redis_database := 0; redis_password := None;
                 redis_ssl := false; redis_max_connections := 50 |};
     payment := {| trial_price := {| float_repr := "1.0" |}; trial_days := 3;
                   full_price := {| float_repr := "35.0" |}; full_days := 365;
                   trial_device_limit := 1; full_device_limit := 5 |};
     server := {| debug := false |} |}.

End Config.

Import Config.

(** ** The connection supervisor ([src/core/database.py], lines 16-153) *)

Module Database.

(** The objects built by [create_async_engine], [async_sessionmaker] and
    [Redis.from_url]: the constructors only record their arguments, no
    connection is opened until the first use. *)
Record Engine := {
  eng_dsn : string;
  eng_echo : bool;
  eng_pool_size : Z;
  eng_max_overflow : Z;
  eng_pool_pre_ping : bool;
  eng_pool_recycle : Z;
  eng_future : bool
}.

Record SessionFactory := {
  sf_bind : Engine;
  sf_expire_on_commit : bool;
  sf_autoflush : bool
}.

Record RedisClient := {
  rc_url : string;
  rc_max_connections : Z;
  rc_decode_responses : bool
}.

Record DatabaseManager := {
  settings : Settings;
  engine : option Engine;
  session_factory : option SessionFactory;
  redis_client : option RedisClient
}.

(** [DatabaseManager.__init__] *)
Definition __init__ (s : Settings) : DatabaseManager :=
  {| settings := s; engine := None; session_factory := None; redis_client := None |}.

(** How the relational backend answers during one call: entering an
    [engine.begin()] block (connect and BEGIN) and leaving it (COMMIT).  The
    supervisor has no statement of its own that reaches the backend, see
    [execute_str]. *)
Record pg_backend := {
  pg_begin : outcome unit;
  pg_commit : outcome unit
}.

(** How the cache backend answers during one call. *)
Record redis_backend := {
  redis_ping : outcome unit;
  redis_info : outcome (gmap string pyval)
}.

Record backends := {
  pg : pg_backend;
  cache : redis_backend
}.

(** [async with self.engine.begin() as conn: body] *)
Definition engine_begin {A} (b : pg_backend) (eng : option Engine)
    (body : result A) : result A :=
  _ ← getattr eng "begin";
  _ ← await (pg_begin b);
  a ← body;
  _ ← await (pg_commit b);
  mret a.

(** [await conn.execute(statement)] where [statement] is a plain [str].
    The library that has [async_sessionmaker] (imported at line 7) is
    SQLAlchemy 2, whose [execute] takes executable objects only, such as
    [text(statement)]: given a [str] it raises [ObjectNotExecutableError]
    on the client, and nothing is sent to the backend. *)
Definition execute_str {A} (statement : string) : result A :=
  Raise (ObjectNotExecutableError statement).

(** The liveness probe of the relational store:
    [async with self.engine.begin() as conn: await conn.execute("SELECT 1")] *)
Definition pg_probe (b : pg_backend) (eng : option Engine) : result unit :=
  engine_begin b eng (
    _ ← execute_str (A := unit) "SELECT 1";
    mret ()).

(** The liveness probe of the cache: [await self.redis_client.ping()] *)
Definition redis_probe (b : redis_backend) (rc : option RedisClient) : result unit :=
  _ ← getattr rc "ping";
  await (redis_ping b).

(** [_init_postgres]: both attributes are assigned before the probe runs. *)
Definition _init_postgres (w : backends) (self : DatabaseManager)
    : result unit * DatabaseManager :=
  let eng := {| eng_dsn := dsn (database (settings self));
                eng_echo := debug (server (settings self));
                eng_pool_size := db_pool_size (database (settings self));
                eng_max_overflow := db_max_overflow (database (settings self));
                eng_pool_pre_ping := true;
                eng_pool_recycle := 300;
                eng_future := true |} in
  let sf := {| sf_bind := eng; sf_expire_on_commit := false; sf_autoflush := false |} in
  let self := {| settings := settings self; engine := Some eng;
                 session_factory := Some sf; redis_client := redis_client self |} in
  (pg_probe (pg w) (engine self), self).

(** [_init_redis]: the client is assigned before it is pinged. *)
Definition _init_redis (w : backends) (self : DatabaseManager)
    : result unit * DatabaseManager :=
  let rc := {| rc_url := url (redis (settings self));
               rc_max_connections := redis_max_connections (redis (settings self));
               rc_decode_responses := true |} in
  let self := {| settings := settings self; engine := engine self;
                 session_factory := session_factory self; redis_client := Some rc |} in
  (redis_probe (cache w) (redis_client self), self).

(** [initialize]: [await self._init_postgres(); await self._init_redis()] *)
Definition initialize (w : backends) (self : DatabaseManager)
    : result unit * DatabaseManager :=
  match _init_postgres w self with
  | (Return _, self1) => _init_redis w self1
  | (Raise e, self1) => (Raise e, self1)
  end.

(** [health_check] *)
Definition health_check (w : backends) (self : DatabaseManager)
    : result (gmap string bool) :=
  let health : gmap string bool := {[ "postgres" := false; "redis" := false ]} in
  (* Check PostgreSQL *)
  health ← try_except_pass (fun health =>
              _ ← pg_probe (pg w) (engine self);
              mret (<["postgres" := true]> health)) health;
  (* Check Redis *)
  health ← try_except_pass (fun health =>
              _ ← redis_probe (cache w) (redis_client self);
              mret (<["redis" := true]> health)) health;
  mret health.

(** The relational half of [get_stats] (lines 121-134): one [engine.begin()]
    block with two scalar queries, outside any [try]. *)
Definition pg_stats (b : pg_backend) (eng : option Engine)
    (stats : gmap string pyval) : result (gmap string pyval) :=
  engine_begin b eng (
    (* Get database size *)
    db_size ← execute_str (A := pyval) "SELECT pg_database_size(current_database())";
    let stats := <["postgres_size_bytes" := db_size]> stats in
    (* Get connection count *)
    connection_count ← execute_str (A := pyval) "SELECT count(*) FROM pg_stat_activity";
    let stats := <["postgres_connections" := connection_count]> stats in
    mret stats).

(** The cache half of [get_stats] (the body of the [try], lines 138-141). *)
Definition redis_stats (b : redis_backend) (rc : option RedisClient)
    (stats : gmap string pyval) : result (gmap string pyval) :=
  _ ← getattr rc "info";
  redis_info ← await (redis_info b);
  let stats := <["redis_memory" := dict_get redis_info "used_memory_human" (PStr "N/A")]> stats in
  let stats := <["redis_connected_clients" := dict_get redis_info "connected_clients" (PInt 0)]> stats in
  let stats := <["redis_total_commands_processed" :=
                   dict_get redis_info "total_commands_processed" (PInt 0)]> stats in
  mret stats.

(** [get_stats] *)
Definition get_stats (w : backends) (self : DatabaseManager)
    : result (gmap string pyval) :=
  let stats : gmap string pyval := ∅ in
  (* PostgreSQL stats *)
  stats ← pg_stats (pg w) (engine self) stats;
  (* Redis stats *)
  stats ← try_except_pass (redis_stats (cache w) (redis_client self)) stats;
  mret stats.

(** *** Backup and restore (lines 165-236)

    The process-level effects of the two operations are the utilities they
    spawn; lines written to the terminal are recorded as well for the
    command-line layer. *)

Record spawn := {
  argv : list string;
  env : gmap string string
}.

(** What [process.communicate()] hands back once the child has exited.
    [stderr_text] is [stderr.decode()]: [None] when the captured bytes are
    not valid UTF-8, and [decode_error] is then the text of the
    [UnicodeDecodeError] that [decode] raises (it names the offending byte
    and its position). *)
Record completed := {
  returncode : Z;
  stderr_text : option string;
  decode_error : string
}.

(** What the operating system answers during one call.  [input_line] is
    the line typed at a prompt: the prompts are followed from the moment a
    line has been read, and a prompt that gets none (a closed standard
    input, an interrupt) is outside the model. *)
Record os_world := {
  strftime_now : string;                         (* now().strftime("%Y%m%d_%H%M%S") *)
  environ : gmap string string;                  (* os.environ *)
  path_div : string -> string -> string;         (* str(Path(a) / b) *)
  path_exists : string -> bool;                  (* os.path.exists *)
  create_subprocess_exec : spawn -> outcome completed;
  input_line : string                            (* the line that input() reads *)
}.

Record sys := {
  spawned : list spawn;
  printed : list string
}.

Definition sys0 : sys := {| spawned := []; printed := [] |}.

Definition proc (A : Type) : Type := sys -> result A * sys.

#[global] Instance proc_ret : MRet proc := fun A a st => (Return a, st).
#[global] Instance proc_bind : MBind proc := fun A B k m st =>
  match m st with
  | (Return a, st') => k a st'
  | (Raise e, st') => (Raise e, st')
  end.

Definition lift {A} (r : result A) : proc A := fun st => (r, st).

Definition raise {A} (e : exn) : proc A := lift (Raise e).

Definition print (line : string) : proc unit := fun st =>
  (Return (), {| spawned := spawned st; printed := printed st ++ [line] |}).

(** [await asyncio.create_subprocess_exec] on [cmd] and [env] followed by
    [await process.communicate()]: the child is recorded when it is spawned. *)
Definition run_subprocess (w : os_world) (c : spawn) : proc completed := fun st =>
  (await (create_subprocess_exec w c),
   {| spawned := spawned st ++ [c]; printed := printed st |}).

(** [try: m  except Exception as e: handler(e)] *)
Definition try_except {A} (m : proc A) (handler : exn -> proc A) : proc A := fun st =>
  match m st with
  | (Return a, st') => (Return a, st')
  | (Raise e, st') => if is_Exception e then handler e st' else (Raise e, st')
  end.

(** The names bound at module level in [database.py] (its imports, lines
    5-13, and its two classes). *)
Definition database_globals : gset string :=
  list_to_set [ "asyncio"; "Optional"; "AsyncGenerator"; "Any"; "Dict"; "List";
                "create_async_engine"; "AsyncSession"; "async_sessionmaker";
                "NullPool"; "Redis"; "asyncpg"; "Settings"; "Base";
                "DatabaseManager"; "DatabaseUtils" ].

(** Looking a free name up in the module globals [g] (neither [Path] nor
    [os] is a builtin). *)
Definition resolve (g : gset string) (name : string) : result unit :=
  if bool_decide (name ∈ g) then Return () else Raise (NameError name).

(** The argument vector of the dump utility (lines 175-184). *)
Definition backup_cmd (c : DatabaseConfig) (filepath : string) : list string :=
  [ "pg_dump";
    "-h"; db_host c;
    "-p"; pretty (db_port c);
    "-U"; db_user c;
    "-d"; db_name c;
    "-f"; filepath;
    "--format=custom";
    "--verbose" ].

(** The argument vector of the restore utility (lines 209-218). *)
Definition restore_cmd (c : DatabaseConfig) (backup_path : string) : list string :=
  [ "pg_restore";
    "-h"; db_host c;
    "-p"; pretty (db_port c);
    "-U"; db_user c;
    "-d"; db_name c;
    "-c";
    "--verbose";
    backup_path ].

(** [f"... failed: {stderr.decode()}"] *)
Definition failure_message (prefix : string) (p : completed) : result string :=
  match stderr_text p with
  | Some text => Return (prefix ++ text)
  | None => Raise (UnicodeDecodeError (decode_error p))
  end.

(** [backup_database], with the module globals [g] it is run under. *)
Definition backup_database (g : gset string) (w : os_world)
    (self : DatabaseManager) (backup_path : string) : proc string :=
  let timestamp := strftime_now w in
  let filename := "connectifyvpn_backup_" ++ timestamp ++ ".sql" in
  _ ← lift (resolve g "Path");
  let filepath := path_div w backup_path filename in
  let cmd := backup_cmd (database (settings self)) filepath in
  _ ← lift (resolve g "os");
  let env := environ w in
  let env := <["PGPASSWORD" := db_password (database (settings self))]> env in
  _ ← lift (resolve g "asyncio");
  process ← run_subprocess w {| argv := cmd; env := env |};
  if bool_decide (returncode process ≠ 0) then
    msg ← lift (failure_message "Backup failed: " process);
    raise (Exception_ msg)
  else
    mret filepath.

(** [restore_database], with the module globals [g] it is run under. *)
Definition restore_database (g : gset string) (w : os_world)
    (self : DatabaseManager) (backup_path : string) : proc bool :=
  let cmd := restore_cmd (database (settings self)) backup_path in
  _ ← lift (resolve g "os");
  let env := environ w in
  let env := <["PGPASSWORD" := db_password (database (settings self))]> env in
  _ ← lift (resolve g "asyncio");
  process ← run_subprocess w {| argv := cmd; env := env |};
  if bool_decide (returncode process ≠ 0) then
    msg ← lift (failure_message "Restore failed: " process);
    raise (Exception_ msg)
  else
    mret true.

(** *** Scoped sessions (lines 78-86) *)

Inductive PlanType := TRIAL | PREMIUM.
Inductive ServerStatus := ONLINE.

(** Modelled from the spec: the entity classes [Plan] and [Server] of
    [core/models.py], which is not among the sources.  The spec only says
    that they are the two kinds of seed record (plan tiers, server pool
    entries); the fields are the keyword arguments that the seed passes to
    their constructors. *)
Record Plan := {
  plan_name : string;
  plan_description : string;
  plan_type : PlanType;
  plan_price : float;
  plan_duration_days : Z;
  plan_device_limit : Z;
  plan_features : list (string * list string);
  plan_is_active : bool;
  plan_is_public : bool
}.

Record Server := {
  srv_name : string;
  srv_hostname : string;
  srv_ip_address : string;
  srv_location : string;
  srv_capacity : Z;
  srv_cpu_cores : Z;
  srv_memory_gb : Z;
  srv_bandwidth_gb : Z;
  srv_status : ServerStatus;
  srv_config : list (string * Z)
}.

(** The visible (committed) content of the relational store. *)
Record Store := {
  plans : list Plan;
  servers : list Server
}.

Inductive entity :=
| EPlan (p : Plan)
| EServer (s : Server).

(** The two scalar queries the sources send through a session. *)
Inductive query :=
| CountActivePlans
| CountServers.

Definition sql (q : query) : string :=
  match q with
  | CountActivePlans => "SELECT COUNT(*) FROM plans WHERE is_active = true"
  | CountServers => "SELECT COUNT(*) FROM servers"
  end.

Definition count_active_plans (db : Store) : Z :=
  Z.of_nat (length (filter (fun p => plan_is_active p = true) (plans db))).

Definition count_servers (db : Store) : Z :=
  Z.of_nat (length (servers db)).

Definition scalar (q : query) (db : Store) : Z :=
  match q with
  | CountActivePlans => count_active_plans db
  | CountServers => count_servers db
  end.

Definition flush (x : entity) (db : Store) : Store :=
  match x with
  | EPlan p => {| plans := plans db ++ [p]; servers := servers db |}
  | EServer s => {| plans := plans db; servers := servers db ++ [s] |}
  end.

(** The transaction-control calls made on a session, in order. *)
Inductive call := CCommit | CRollback | CClose.

#[global] Instance call_eq_dec : EqDecision call.
Proof. solve_decision. Defined.

(** A session over the store: objects handed to [session.add] stay pending
    until a commit writes them ([autoflush=False]); [round_trips] numbers
    the statements sent to the backend, [out] collects printed lines. *)
Record Session := {
  db : Store;
  pending : list entity;
  calls : list call;
  round_trips : nat;
  out : list string
}.

Definition open_session (store : Store) (lines : list string) : Session :=
  {| db := store; pending := []; calls := []; round_trips := 0; out := lines |}.

(** Which round trip of a session the backend fails, and how. *)
Definition faults : Type := nat -> option string.

Definition no_faults : faults := fun _ => None.

(** [await session.commit()] *)
Definition session_commit (f : faults) (s : Session) : result unit * Session :=
  match f (round_trips s) with
  | Some msg =>
      (Raise (DriverError msg),
       {| db := db s; pending := pending s; calls := calls s ++ [CCommit];
          round_trips := S (round_trips s); out := out s |})
  | None =>
      (Return (),
       {| db := foldl (fun d x => flush x d) (db s) (pending s); pending := [];
          calls := calls s ++ [CCommit];
          round_trips := S (round_trips s); out := out s |})
  end.

(** [await session.rollback()] *)
Definition session_rollback (s : Session) : Session :=
  {| db := db s; pending := []; calls := calls s ++ [CRollback];
     round_trips := round_trips s; out := out s |}.

(** Leaving [async with self.session_factory() as session]: the session is
    closed, which discards whatever is still uncommitted. *)
Definition session_close (s : Session) : Session :=
  {| db := db s; pending := []; calls := calls s ++ [CClose];
     round_trips := round_trips s; out := out s |}.

(** Code that runs with a session in hand: straight-line Python over the
    session API, as a tree of the calls it makes. *)
Inductive block (A : Type) : Type :=
| Done (a : A)
| Throw (e : exn)                             (* raise e *)
| Exec (q : query) (k : Z -> block A)         (* (await session.execute(text(q))).scalar() *)
| Add (x : entity) (k : block A)              (* session.add(x) *)
| Commit (k : block A)                        (* await session.commit() *)
| Rollback (k : block A)                      (* await session.rollback() *)
| Print (line : string) (k : block A).        (* print(line) *)
Arguments Done {A} a.
Arguments Throw {A} e.
Arguments Exec {A} q k.
Arguments Add {A} x k.
Arguments Commit {A} k.
Arguments Rollback {A} k.
Arguments Print {A} line k.

Fixpoint block_bind {A B} (b : block A) (k : A -> block B) : block B :=
  match b with
  | Done a => k a
  | Throw e => Throw e
  | Exec q c => Exec q (fun z => block_bind (c z) k)
  | Add x c => Add x (block_bind c k)
  | Commit c => Commit (block_bind c k)
  | Rollback c => Rollback (block_bind c k)
  | Print line c => Print line (block_bind c k)
  end.

#[global] Instance block_ret : MRet block := @Done.
#[global] Instance block_mbind : MBind block := fun A B k b => block_bind b k.

Definition execute_scalar (q : query) : block Z := Exec q Done.
Definition add (x : entity) : block unit := Add x (Done ()).
Definition commit : block unit := Commit (Done ()).
Definition rollback : block unit := Rollback (Done ()).
Definition say (line : string) : block unit := Print line (Done ()).

(** [for x in xs: session.add(x)] *)
Fixpoint add_all (xs : list entity) : block unit :=
  match xs with
  | [] => Done ()
  | x :: xs => Add x (add_all xs)
  end.

Fixpoint run {A} (f : faults) (b : block A) (s : Session) : result A * Session :=
  match b with
  | Done a => (Return a, s)
  | Throw e => (Raise e, s)
  | Exec q k =>
      let s' := {| db := db s; pending := pending s; calls := calls s;
                   round_trips := S (round_trips s); out := out s |} in
      match f (round_trips s) with
      | Some msg => (Raise (DriverError msg), s')
      | None => run f (k (scalar q (db s))) s'
      end
  | Add x k =>
      run f k {| db := db s; pending := pending s ++ [x]; calls := calls s;
                 round_trips := round_trips s; out := out s |}
  | Commit k =>
      match session_commit f s with
      | (Return _, s') => run f k s'
      | (Raise e, s') => (Raise e, s')
      end
  | Rollback k => run f k (session_rollback s)
  | Print line k =>
      run f k {| db := db s; pending := pending s; calls := calls s;
                 round_trips := round_trips s; out := out s ++ [line] |}
  end.

(** [get_session] is an async generator: its code runs only while something
    drives it.  This is its run around [body] when a driver advances it to
    the [yield], lets [body] use the yielded session, and then resumes it
    (the body finished) or throws the body's exception into it at the
    [yield] (the body raised). *)
Definition get_session {A} (self : DatabaseManager) (f : faults)
    (body : block A) (s0 : Session) : result A * Session :=
  match session_factory self with
  | None => (Raise (TypeError "'NoneType' object is not callable"), s0)
  | Some _ =>
      (* async with self.session_factory() as session: *)
      let '(r, s) :=
        (* try: yield session *)
        match run f body s0 with
        | (Return a, s1) =>
            (* await session.commit() *)
            match session_commit f s1 with
            | (Return _, s2) => (Return a, s2)
            | (Raise e, s2) =>
                (* except Exception: await session.rollback(); raise *)
                if is_Exception e then (Raise e, session_rollback s2)
                else (Raise e, s2)
            end
        | (Raise e, s1) =>
            (* except Exception: await session.rollback(); raise *)
            if is_Exception e then (Raise e, session_rollback s1)
            else (Raise e, s1)
        end in
      (r, session_close s)
  end.

(** [async with self.db.get_session() as session: body].  The statement
    needs an object with [__aenter__] and [__aexit__]; the async generator
    that [get_session()] returns has neither, so as the method is written
    ([context_manager = false], no [asynccontextmanager] decorator) the
    statement raises before the generator is started.  With
    [context_manager = true] the generator is driven as described above. *)
Definition async_with_get_session {A} (context_manager : bool)
    (self : DatabaseManager) (f : faults) (body : block A) (s0 : Session)
    : result A * Session :=
  if context_manager then get_session self f body s0
  else (Raise (TypeError
          "'async_generator' object does not support the asynchronous context manager protocol"),
        s0).

(** How [get_session] is declared in the source. *)
Definition get_session_is_context_manager : bool := false.

(** A block that leaves transaction control to the scope around it. *)
Fixpoint no_transaction_control {A} (b : block A) : Prop :=
  match b with
  | Done _ | Throw _ => True
  | Exec _ k => forall z, no_transaction_control (k z)
  | Add _ k | Print _ k => no_transaction_control k
  | Commit _ | Rollback _ => False
  end.

(** *** Connection blocks, raw queries, utilities and release
    (lines 68-76, 147-163 and 240-285) *)

(** [Base.metadata.create_all] and [Base.metadata.drop_all], run through
    [conn.run_sync]. *)
Inductive ddl := CreateAll | DropAll.

(** What [conn.execute] hands back: a result with its column names and its
    rows, or a result that returns no rows (as a DDL statement gives),
    on which [fetchall], [keys] and [scalar] raise. *)
Inductive cursor :=
| Rows (keys : list string) (fetchall : list (list pyval))
| NoRows.

(** What is sent to the relational backend through an engine. *)
Inductive pg_event :=
| EvBegin
| EvExecute (sql : string) (params : gmap string pyval)
| EvRunSync (d : ddl)
| EvCommit
| EvRollback.

#[global] Instance ddl_eq_dec : EqDecision ddl.
Proof. solve_decision. Defined.
#[global] Instance pg_event_eq_dec : EqDecision pg_event.
Proof. solve_decision. Defined.

(** How the relational backend answers during one run, statement by
    statement, to what reaches it (statements wrapped in [text(...)], and
    the schema operations of [run_sync]); the same statement is answered
    the same way throughout. *)
Record pg_server := {
  on_begin : outcome unit;
  on_execute : string -> gmap string pyval -> outcome cursor;
  on_run_sync : ddl -> outcome unit;
  on_commit : outcome unit
}.

(** Code that talks to the relational backend, with what it has sent. *)
Definition conn (A : Type) : Type := list pg_event -> result A * list pg_event.

#[global] Instance conn_ret : MRet conn := fun A a sent => (Return a, sent).
#[global] Instance conn_bind : MBind conn := fun A B k m sent =>
  match m sent with
  | (Return a, sent') => k a sent'
  | (Raise e, sent') => (Raise e, sent')
  end.

Definition conn_lift {A} (r : result A) : conn A := fun sent => (r, sent).

(** [await conn.execute(text(sql), params)] *)
Definition conn_execute (srv : pg_server) (sql : string)
    (params : gmap string pyval) : conn cursor := fun sent =>
  (await (on_execute srv sql params), (sent ++ [EvExecute sql params])%list).

(** [await conn.execute(query, params)] where [query] is a plain [str]:
    refused on the client, see [execute_str]; nothing is sent. *)
Definition conn_execute_str (query : string) (params : gmap string pyval)
    : conn cursor :=
  conn_lift (execute_str query).

(** [await conn.run_sync(d)] *)
Definition conn_run_sync (srv : pg_server) (d : ddl) : conn unit := fun sent =>
  (await (on_run_sync srv d), (sent ++ [EvRunSync d])%list).

(** [async with self.engine.begin() as conn: body]: the block commits when
    the body finishes and rolls back when it raises. *)
Definition begin_block {A} (srv : pg_server) (eng : option Engine)
    (body : conn A) : conn A := fun sent =>
  match getattr eng "begin" with
  | Raise e => (Raise e, sent)
  | Return _ =>
      match await (on_begin srv) with
      | Raise e => (Raise e, (sent ++ [EvBegin])%list)
      | Return _ =>
          match body (sent ++ [EvBegin])%list with
          | (Return a, sent') =>
              (_ ← await (on_commit srv); mret a, (sent' ++ [EvCommit])%list)
          | (Raise e, sent') => (Raise e, (sent' ++ [EvRollback])%list)
          end
      end
  end.

(** [create_tables] and [drop_tables] *)
Definition create_tables (srv : pg_server) (self : DatabaseManager) : conn unit :=
  begin_block srv (engine self) (conn_run_sync srv CreateAll).

Definition drop_tables (srv : pg_server) (self : DatabaseManager) : conn unit :=
  begin_block srv (engine self) (conn_run_sync srv DropAll).

(** [get_redis] *)
Definition get_redis (self : DatabaseManager) : option RedisClient :=
  redis_client self.

(** [dict(pairs)]: a later pair replaces an earlier one with the same key. *)
Definition dict {V} (pairs : list (string * V)) : gmap string V :=
  foldl (fun d kv => <[kv.1 := kv.2]> d) ∅ pairs.

(** [result.fetchall()] with [result.keys()] *)
Definition fetch (c : cursor) : result (list string * list (list pyval)) :=
  match c with
  | Rows columns rows => Return (columns, rows)
  | NoRows => Raise (DriverError "This result object does not return rows. It has been closed automatically.")
  end.

(** [execute_raw_query]; [params or {}] is the empty dict for [None]. *)
Definition execute_raw_query (srv : pg_server) (self : DatabaseManager)
    (query : string) (params : option (gmap string pyval))
    : conn (list (gmap string pyval)) :=
  begin_block srv (engine self) (
    result ← conn_execute_str query (default ∅ params);
    fetched ← conn_lift (fetch result);
    let rows := fetched.2 in
    (* Convert to dict *)
    let columns := fetched.1 in
    mret ((fun row => dict (zip columns row)) <$> rows)).

(** The errors of the utilities: a [KeyError] of their own subscript, or
    whatever the query raised. *)
Inductive utils_error :=
| KeyError (key : string)
| Propagated (e : exn).

(** What [table_exists] returns: the value found in the row, or Python's
    [False]. *)
Inductive truth :=
| FromRow (v : pyval)
| PyFalse.

Definition newline : string := String (Ascii.ascii_of_nat 10) "".

Definition table_exists_query : string :=
  newline ++ "        SELECT EXISTS (" ++
  newline ++ "            SELECT FROM information_schema.tables " ++
  newline ++ "            WHERE table_schema = 'public' " ++
  newline ++ "            AND table_name = :table" ++
  newline ++ "        )" ++
  newline ++ "        ".

Definition table_size_query : string :=
  newline ++ "        SELECT pg_total_relation_size(:table)" ++
  newline ++ "        ".

(** [result[0][key] if result else default], on the outcome of the query. *)
Definition first_row_field {A} (key : string) (from_row : pyval -> A) (default : A)
    (queried : result (list (gmap string pyval))) : utils_error + A :=
  match queried with
  | Raise e => inl (Propagated e)
  | Return [] => inr default
  | Return (row :: _) =>
      match row !! key with
      | Some v => inr (from_row v)
      | None => inl (KeyError key)
      end
  end.

(** [DatabaseUtils.table_exists] *)
Definition table_exists (srv : pg_server) (db : DatabaseManager) (table : string)
    (sent : list pg_event) : (utils_error + truth) * list pg_event :=
  let '(result, sent) :=
    execute_raw_query srv db table_exists_query (Some {[ "table" := PStr table ]}) sent in
  (first_row_field "exists" FromRow PyFalse result, sent).

(** [DatabaseUtils.get_table_size] *)
Definition get_table_size (srv : pg_server) (db : DatabaseManager) (table : string)
    (sent : list pg_event) : (utils_error + pyval) * list pg_event :=
  let '(result, sent) :=
    execute_raw_query srv db table_size_query (Some {[ "table" := PStr table ]}) sent in
  (first_row_field "pg_total_relation_size" id (PInt 0) result, sent).

(** How releasing the two connections goes. *)
Record release_backend := {
  engine_dispose : outcome unit;
  redis_close : outcome unit
}.

Inductive release :=
| Disposed (e : Engine)
| ClientClosed (c : RedisClient).

(** [close]: the attributes are tested, used and left as they are. *)
Definition close (rb : release_backend) (self : DatabaseManager)
    (released : list release) : result unit * list release :=
  let '(r, released) :=
    match engine self with
    | Some e => (await (engine_dispose rb), (released ++ [Disposed e])%list)
    | None => (Return (), released)
    end in
  match r with
  | Raise e => (Raise e, released)
  | Return _ =>
      match redis_client self with
      | Some c => (await (redis_close rb), (released ++ [ClientClosed c])%list)
      | None => (Return (), released)
      end
  end.

(** The answers of the backend to the blocks of the probes and of the
    statistics. *)
Definition backend_of (srv : pg_server) : pg_backend :=
  {| pg_begin := on_begin srv; pg_commit := on_commit srv |}.

End Database.

(** ** The migration manager ([scripts/migrate.py]) *)

Module Migrate.

Import Database.

Record MigrationManager := {
  mm_settings : Settings;
  mm_db : DatabaseManager
}.

(** [str(e)] *)
Definition str_exn (e : exn) : string :=
  match e with
  | NameError name => "name '" ++ name ++ "' is not defined"
  | AttributeError msg | TypeError msg | UnicodeDecodeError msg
  | Exception_ msg | DriverError msg => msg
  | ObjectNotExecutableError target => "Not an executable object: " ++ repr target
  | CancelledError | KeyboardInterrupt => ""
  | SystemExit code => pretty code
  end.

(** [str.lower] on the ASCII letters; no other character lowers to one of
    the letters of ['yes']. *)
Definition lower_ascii (c : Ascii.ascii) : Ascii.ascii :=
  let n := Ascii.N_of_ascii c in
  if bool_decide (65 <= n <= 90)%N then Ascii.ascii_of_N (n + 32) else c.

Fixpoint lower (s : string) : string :=
  match s with
  | EmptyString => EmptyString
  | String c s => String (lower_ascii c) (lower s)
  end.

(** *** Reference data (lines 99-138 and 154-209) *)

Definition default_plans (s : Settings) : list Plan :=
  [ {| plan_name := "Trial";
       plan_description := "3-day trial with limited features";
       plan_type := TRIAL;
       plan_price := trial_price (payment s);
       plan_duration_days := trial_days (payment s);
       plan_device_limit := trial_device_limit (payment s);
       plan_features :=
         [ ("highlights",
            [ "3 days access"; "1 device"; "Basic support"; "All protocols" ]) ];
       plan_is_active := true;
       plan_is_public := true |};
    {| plan_name := "Premium";
       plan_description := "Full premium access for 365 days";
       plan_type := PREMIUM;
       plan_price := full_price (payment s);
       plan_duration_days := full_days (payment s);
       plan_device_limit := full_device_limit (payment s);
       plan_features :=
         [ ("highlights",
            [ "365 days access";
              pretty (full_device_limit (payment s)) ++ " devices";
              "Priority support"; "All protocols"; "Global servers";
              "No speed limits" ]) ];
       plan_is_active := true;
       plan_is_public := true |} ].

Definition default_ports : list (string * Z) :=
  [ ("vless_tls_port", 443); ("vless_ntls_port", 80); ("vmess_tls_port", 8443);
    ("vmess_ntls_port", 8080); ("trojan_port", 8443) ].

Definition default_servers : list Server :=
  [ {| srv_name := "SG-01"; srv_hostname := "sg01.yourdomain.com";
       srv_ip_address := "1.2.3.4"; srv_location := "Singapore";
       srv_capacity := 20; srv_cpu_cores := 4; srv_memory_gb := 8;
       srv_bandwidth_gb := 1000; srv_status := ONLINE;
       srv_config := default_ports |};
    {| srv_name := "SG-02"; srv_hostname := "sg02.yourdomain.com";
       srv_ip_address := "2.3.4.5"; srv_location := "Singapore";
       srv_capacity := 20; srv_cpu_cores := 4; srv_memory_gb := 8;
       srv_bandwidth_gb := 1000; srv_status := ONLINE;
       srv_config := default_ports |};
    {| srv_name := "US-01"; srv_hostname := "us01.yourdomain.com";
       srv_ip_address := "3.4.5.6"; srv_location := "United States";
       srv_capacity := 25; srv_cpu_cores := 6; srv_memory_gb := 12;
       srv_bandwidth_gb := 2000; srv_status := ONLINE;
       srv_config := default_ports |} ].

(** *** Seeding (lines 81-216) *)

(** The body of the [async with] statement of [seed_database]. *)
Definition seed_block (s : Settings) : block unit :=
  (* Check if data already exists *)
  plan_count ← execute_scalar CountActivePlans;
  if bool_decide (plan_count > 0) then
    say "⚠️  Database already contains data. Skipping seed."
  else
    (* Create default plans *)
    let plans := default_plans s in
    add_all (EPlan <$> plans);;
    commit;;
    say ("✅ Created " ++ pretty (length plans) ++ " default plans");;
    (* Create default servers (if not exists) *)
    server_count ← execute_scalar CountServers;
    if bool_decide (server_count = 0) then
      let servers := default_servers in
      add_all (EServer <$> servers);;
      commit;;
      say ("✅ Created " ++ pretty (length servers) ++ " default servers")
    else
      mret ().

(** [seed_database] on the store [store], the backend failing as [f] says.
    [context_manager] tells whether [self.db.get_session()] can be entered
    by [async with]; in the source it is [get_session_is_context_manager]. *)
Definition seed_database (context_manager : bool) (self : MigrationManager)
    (f : faults) (store : Store) : result unit * Session :=
  let s0 := open_session store ["🌱 Seeding database with initial data..."] in
  async_with_get_session context_manager (mm_db self) f
    (seed_block (mm_settings self)) s0.

(** The store left behind by one run of the seed. *)
Definition seeded (context_manager : bool) (self : MigrationManager)
    (f : faults) (store : Store) : Store :=
  db (seed_database context_manager self f store).2.

(** *** Backup and restore (lines 278-310) *)

(** [backup]; [backup_path] is [None] when the command line gave no path,
    and an empty path is replaced like a missing one. *)
Definition backup (g : gset string) (w : os_world) (self : MigrationManager)
    (backup_path : option string) : proc unit :=
  let backup_path :=
    match backup_path with
    | Some p => if bool_decide (p = "") then
                  "/tmp/connectifyvpn_backup_" ++ strftime_now w ++ ".dump"
                else p
    | None => "/tmp/connectifyvpn_backup_" ++ strftime_now w ++ ".dump"
    end in
  print ("💾 Creating backup at " ++ backup_path ++ "...");;
  try_except
    (backup_file ← backup_database g w (mm_db self) backup_path;
     print ("✅ Backup created: " ++ backup_file))
    (fun e => print ("❌ Backup failed: " ++ str_exn e)).

(** [restore] *)
Definition restore (g : gset string) (w : os_world) (self : MigrationManager)
    (backup_path : string) : proc unit :=
  if negb (path_exists w backup_path) then
    print ("❌ Backup file not found: " ++ backup_path)
  else
    print ("🔄 Restoring from " ++ backup_path ++ "...");;
    print "⚠️  This will OVERWRITE current data! Are you sure? (yes/no): ";;
    let confirm := input_line w in
    if bool_decide (lower confirm ≠ "yes") then
      print "❌ Restore cancelled"
    else
      try_except
        (_ ← restore_database g w (mm_db self) backup_path;
         print "✅ Restore completed")
        (fun e => print ("❌ Restore failed: " ++ str_exn e)).

End Migrate.

(** ** Required settings ([src/core/config.py], lines 421-442) *)

Module Validate.

(** The fields read by [Settings.validate] that the records of the settings
    above do not carry: [telegram.bot_token], the two ToyyibPay keys of
    [payment] and [security.jwt_secret], all of them strings. *)
Record secrets := {
  bot_token : string;
  toyyibpay_secret_key : string;
  toyyibpay_category_code : string;
  jwt_secret : string
}.

(** [sep.join(xs)] *)
Fixpoint join (sep : string) (xs : list string) : string :=
  match xs with
  | [] => ""
  | [x] => x
  | x :: rest => x ++ sep ++ join sep rest
  end.

(** [if not value: errors.append(message)] *)
Definition require (value message : string) (errors : list string) : list string :=
  if bool_decide (value = "") then (errors ++ [message])%list else errors.

(** [validate]: [None] when it returns, the message of its [ValueError]
    when it raises. *)
Definition validate (x : secrets) (s : Settings) : option string :=
  let errors := [] in
  (* Check required fields *)
  let errors := require (bot_token x) "BOT_TOKEN is required" errors in
  let errors := require (toyyibpay_secret_key x) "TOYYIBPAY_USER_SECRET_KEY is required" errors in
  let errors := require (toyyibpay_category_code x) "TOYYIBPAY_CATEGORY_CODE is required" errors in
  let errors := require (jwt_secret x) "JWT_SECRET is required" errors in
  let errors := require (db_password (database s)) "DB_PASSWORD is required" errors in
  if bool_decide (errors = []) then None
  else Some ("Configuration errors: " ++ join ", " errors).

(** The required values with the message reported for each. *)
Definition required_fields (x : secrets) (s : Settings) : list (string * string) :=
  [ (bot_token x, "BOT_TOKEN is required");
    (toyyibpay_secret_key x, "TOYYIBPAY_USER_SECRET_KEY is required");
    (toyyibpay_category_code x, "TOYYIBPAY_CATEGORY_CODE is required");
    (jwt_secret x, "JWT_SECRET is required");
    (db_password (database s), "DB_PASSWORD is required") ].

End Validate.

(** ** The command line ([scripts/migrate.py], lines 34-79, 218-276 and 312-382) *)

Module Cli.

Import Database Migrate.

(** Everything outside the process during one run of the script. *)
Record world := {
  load_settings : string + Settings;        (* Settings(): the ValueError message, or the settings *)
  relational : pg_server;
  cache_backend : redis_backend;
  releasing : release_backend;
  os : os_world;
  session_faults : faults;
  alembic_upgrade : outcome unit;           (* os.chdir, Config and command.upgrade *)
  format_megabytes : pyval -> result string (* f"{v / 1024**2:.2f}" *)
}.

Definition backends_of (W : world) : backends :=
  {| pg := backend_of (relational W); cache := cache_backend W |}.

(** The state of a run once the manager exists.  A run executes one
    command.  [sent] is what that command sends through a connection block
    of its own (create, drop, indexes); the probes of the supervisor appear
    through their results only.  [relation] is the content of the two seeded
    tables as the seed command finds and leaves them; what a drop or a
    restore does to the rows is not followed. *)
Record cli_state := {
  term : sys;
  manager : MigrationManager;
  relation : Store;
  sent : list pg_event;
  released : list release
}.

Definition cli (A : Type) : Type := cli_state -> result A * cli_state.

#[global] Instance cli_ret : MRet cli := fun A a st => (Return a, st).
#[global] Instance cli_bind : MBind cli := fun A B k m st =>
  match m st with
  | (Return a, st') => k a st'
  | (Raise e, st') => (Raise e, st')
  end.

Definition on_term {A} (m : MigrationManager -> proc A) : cli A := fun st =>
  let '(r, t) := m (manager st) (term st) in
  (r, {| term := t; manager := manager st; relation := relation st;
         sent := sent st; released := released st |}).

Definition on_conn {A} (m : DatabaseManager -> conn A) : cli A := fun st =>
  let '(r, events) := m (mm_db (manager st)) (sent st) in
  (r, {| term := term st; manager := manager st; relation := relation st;
         sent := events; released := released st |}).

Definition say (line : string) : cli unit := on_term (fun _ => print line).

Definition sys_exit {A} (code : Z) : cli A := fun st => (Raise (SystemExit code), st).

(** [MigrationManager.__init__], once [Settings()] has returned. *)
Definition __init__ (settings : Settings) : MigrationManager :=
  {| mm_settings := settings; mm_db := Database.__init__ settings |}.

(** [initialize]: [await self.db.initialize()] *)
Definition initialize (W : world) : cli unit := fun st =>
  let '(r, db') := Database.initialize (backends_of W) (mm_db (manager st)) in
  (r, {| term := term st;
         manager := {| mm_settings := mm_settings (manager st); mm_db := db' |};
         relation := relation st; sent := sent st; released := released st |}).

(** [create_tables] *)
Definition create_tables (W : world) : cli unit :=
  say "🗄️  Creating database tables...";;
  on_conn (Database.create_tables (relational W));;
  say "✅ Tables created successfully".

(** [drop_tables] *)
Definition drop_tables (W : world) : cli unit :=
  say "⚠️  This will DELETE ALL DATA! Are you sure? (yes/no): ";;
  let confirm := input_line (os W) in
  if bool_decide (lower confirm = "yes") then
    say "🗑️  Dropping all tables...";;
    on_conn (Database.drop_tables (relational W));;
    say "✅ Tables dropped successfully"
  else
    say "❌ Operation cancelled".

(** [health.get(key)] as a condition *)
Definition healthy (health : gmap string bool) (key : string) : bool :=
  default false (health !! key).

(** [all(health.values())] *)
Definition all_values (health : gmap string bool) : bool :=
  forallb id (snd <$> map_to_list health).

(** [check_connection] *)
Definition check_connection (W : world) : cli bool :=
  say "🔍 Checking database connection...";;
  health ← on_term (fun self => lift (health_check (backends_of W) (mm_db self)));
  (if healthy health "postgres" then say "✅ PostgreSQL connection successful" else say "❌ PostgreSQL connection failed");;
  (if healthy health "redis" then say "✅ Redis connection successful" else say "❌ Redis connection failed");;
  mret (all_values health).

(** [str(v)] for the values of the statistics *)
Definition str_pyval (v : pyval) : string :=
  match v with
  | PNone => "None"
  | PInt z => pretty z
  | PStr s => s
  | PFloat f => float_repr f
  end.

(** [get_stats] *)
Definition get_stats (W : world) : cli unit :=
  say "📊 Getting database statistics...";;
  stats ← on_term (fun self => lift (Database.get_stats (backends_of W) (mm_db self)));
  megabytes ← on_term (fun _ =>
    lift (format_megabytes W (dict_get stats "postgres_size_bytes" (PInt 0))));
  say ("PostgreSQL Size: " ++ megabytes ++ " MB");;
  say ("PostgreSQL Connections: " ++ str_pyval (dict_get stats "postgres_connections" (PInt 0)));;
  say ("Redis Memory: " ++ str_pyval (dict_get stats "redis_memory" (PStr "N/A")));;
  say ("Redis Clients: " ++ str_pyval (dict_get stats "redis_connected_clients" (PInt 0))).

(** [seed_database], on the relation held by the run. *)
Definition seed_database (context_manager : bool) (W : world) : cli unit := fun st =>
  let '(r, session) :=
    Migrate.seed_database context_manager (manager st) (session_faults W) (relation st) in
  (r, {| term := {| spawned := spawned (term st);
                    printed := printed (term st) ++ out session |};
         manager := manager st; relation := db session;
         sent := sent st; released := released st |}).

(** The statements of [create_indexes] (lines 222-255). *)
Definition indexes : list string :=
  [ "CREATE INDEX IF NOT EXISTS idx_users_telegram_id ON users(telegram_id)";
    "CREATE INDEX IF NOT EXISTS idx_users_email ON users(email)";
    "CREATE INDEX IF NOT EXISTS idx_users_status ON users(status)";
    "CREATE INDEX IF NOT EXISTS idx_accounts_user_id ON accounts(user_id)";
    "CREATE INDEX IF NOT EXISTS idx_accounts_server_id ON accounts(server_id)";
    "CREATE INDEX IF NOT EXISTS idx_accounts_status ON accounts(status)";
    "CREATE INDEX IF NOT EXISTS idx_accounts_expires_at ON accounts(expires_at)";
    "CREATE INDEX IF NOT EXISTS idx_accounts_user_status ON accounts(user_id, status)";
    "CREATE INDEX IF NOT EXISTS idx_orders_user_id ON orders(user_id)";
    "CREATE INDEX IF NOT EXISTS idx_orders_status ON orders(status)";
    "CREATE INDEX IF NOT EXISTS idx_orders_created_at ON orders(created_at)";
    "CREATE INDEX IF NOT EXISTS idx_orders_user_status ON orders(user_id, status)";
    "CREATE INDEX IF NOT EXISTS idx_vpn_sessions_account_id ON vpn_sessions(account_id)";
    "CREATE INDEX IF NOT EXISTS idx_vpn_sessions_is_active ON vpn_sessions(is_active)";
    "CREATE INDEX IF NOT EXISTS idx_vpn_sessions_created_at ON vpn_sessions(created_at)";
    "CREATE INDEX IF NOT EXISTS idx_tickets_user_id ON tickets(user_id)";
    "CREATE INDEX IF NOT EXISTS idx_tickets_status ON tickets(status)";
    "CREATE INDEX IF NOT EXISTS idx_tickets_created_at ON tickets(created_at)";
    "CREATE INDEX IF NOT EXISTS idx_audit_logs_user_id ON audit_logs(user_id)";
    "CREATE INDEX IF NOT EXISTS idx_audit_logs_event_type ON audit_logs(event_type)";
    "CREATE INDEX IF NOT EXISTS idx_audit_logs_created_at ON audit_logs(created_at)" ].

(** [for index_sql in indexes: await conn.execute(text(index_sql))] *)
Fixpoint execute_all (srv : pg_server) (statements : list string) : conn unit :=
  match statements with
  | [] => mret ()
  | index_sql :: rest =>
      conn_execute srv index_sql ∅;;
      execute_all srv rest
  end.

(** [create_indexes] *)
Definition create_indexes (W : world) : cli unit :=
  say "📈 Creating database indexes...";;
  on_conn (fun db => begin_block (relational W) (engine db)
                       (execute_all (relational W) indexes));;
  say "✅ Database indexes created".

(** [migrate] *)
Definition migrate (W : world) : cli unit :=
  say "🚀 Running Alembic migrations...";;
  on_term (fun _ => lift (await (alembic_upgrade W)));;
  say "✅ Migrations completed".

(** [cleanup]: [await self.db.close()] *)
Definition cleanup (W : world) : cli unit := fun st =>
  let '(r, log) := close (releasing W) (mm_db (manager st)) (released st) in
  (r, {| term := term st; manager := manager st; relation := relation st;
         sent := sent st; released := log |}).

(** [try: body  finally: handler] *)
Definition try_finally {A} (body : cli A) (handler : cli unit) : cli A := fun st =>
  let '(r, st1) := body st in
  match handler st1 with
  | (Return _, st2) => (r, st2)
  | (Raise e, st2) => (Raise e, st2)
  end.

Definition usage : list string :=
  [ "Usage: python migrate.py <command>";
    "Commands:";
    "  check      - Check database connection";
    "  create     - Create tables";
    "  drop       - Drop all tables (DANGEROUS!)";
    "  seed       - Seed with initial data";
    "  indexes    - Create performance indexes";
    "  migrate    - Run Alembic migrations";
    "  stats      - Show database statistics";
    "  backup     - Create database backup";
    "  restore    - Restore from backup" ].

(** The commands of [main], dispatched on [sys.argv[1]]; [rest] is
    [sys.argv[2:]]. *)
Definition dispatch (context_manager : bool) (g : gset string) (W : world)
    (command : string) (rest : list string) : cli unit :=
  if bool_decide (command = "check") then
    check_connection W ≫= fun success : bool =>
    sys_exit (if success then 0 else 1)
  else if bool_decide (command = "create") then create_tables W
  else if bool_decide (command = "drop") then drop_tables W
  else if bool_decide (command = "seed") then seed_database context_manager W
  else if bool_decide (command = "indexes") then create_indexes W
  else if bool_decide (command = "migrate") then migrate W
  else if bool_decide (command = "stats") then get_stats W
  else if bool_decide (command = "backup") then
    let backup_path := head rest in
    on_term (fun self => backup g (os W) self backup_path)
  else if bool_decide (command = "restore") then
    match rest with
    | [] => say "Usage: python migrate.py restore <backup_path>";; sys_exit 1
    | backup_path :: _ => on_term (fun self => restore g (os W) self backup_path)
    end
  else
    say ("Unknown command: " ++ command);;
    sys_exit 1.

(** How a run of the script ends. *)
Inductive ending :=
| Finished                       (* main returned: exit status 0 *)
| Exited (code : Z)              (* sys.exit(code) *)
| Uncaught (e : exn)             (* a traceback: exit status 1 *)
| InvalidSettings (msg : string) (* the ValueError of Settings(): exit status 1 *).

Definition ending_of (r : result unit) : ending :=
  match r with
  | Return _ => Finished
  | Raise (SystemExit code) => Exited code
  | Raise e => Uncaught e
  end.

Definition exit_status (e : ending) : Z :=
  match e with
  | Finished => 0
  | Exited code => code
  | Uncaught _ | InvalidSettings _ => 1
  end.

(** What a run leaves behind: only printed lines when no manager was
    constructed, the state of the run otherwise. *)
Inductive footprint :=
| Unstarted (lines : list string)
| Ran (st : cli_state).

(** [main], on [sys.argv] and the relation [store] held by the backend. *)
Definition main (context_manager : bool) (g : gset string) (W : world)
    (sys_argv : list string) (store : Store) : ending * footprint :=
  match sys_argv with
  | [] | [_] => (Exited 1, Unstarted usage)
  | _ :: command :: rest =>
      match load_settings W with
      | inl msg => (InvalidSettings msg, Unstarted [])
      | inr settings =>
          let st0 := {| term := sys0; manager := __init__ settings;
                        relation := store; sent := []; released := [] |} in
          let '(r, st) :=
            try_finally
              (initialize W;; dispatch context_manager g W command rest)
              (cleanup W) st0 in
          (ending_of r, Ran st)
      end
  end.

End Cli.

(** * Properties *)

Import Database Migrate.

(** ** Example worlds *)

(** A relational store that accepts connections, and one that refuses
    them. *)
Definition pg_up : pg_backend :=
  {| pg_begin := Reply (); pg_commit := Reply () |}.


Definition redis_up : redis_backend :=
  {| redis_ping := Reply ();
     redis_info := Reply {[ "used_memory_human" := PStr "1.05M";
                            "connected_clients" := PInt 3 ]} |}.

Definition redis_down : redis_backend :=
  {| redis_ping := Fault "Error 111 connecting to localhost:6379";
     redis_info := Fault "Error 111 connecting to localhost:6379" |}.

(** A manager that went through [initialize] with both backends up: its
    engine and its session factory are set, and it has no cache client,
    [initialize] having stopped at the relational probe. *)
Definition ready_manager : DatabaseManager :=
  (initialize {| pg := pg_up; cache := redis_up |} (__init__ default_settings)).2.

(** A manager on which [_init_postgres] and then [_init_redis] were called
    one by one, with both backends up. *)
Definition probed_manager : DatabaseManager :=
  let w := {| pg := pg_up; cache := redis_up |} in
  (_init_redis w (_init_postgres w (__init__ default_settings)).2).2.

Definition ready_migration_manager : MigrationManager :=
  {| mm_settings := default_settings; mm_db := ready_manager |}.

(** An operating system in which the spawned utility exits with [code],
    having written [err] to its standard error. *)
Definition os_where_utility_exits (code : Z) (err : option string) : os_world :=
  {| strftime_now := "20240131_235959";
     environ := {[ "PATH" := "/usr/bin" ]};
     path_div := fun a b => a ++ "/" ++ b;
     path_exists := fun p => bool_decide (p = "/var/backups/last.dump");
     create_subprocess_exec :=
       fun _ => Reply {| returncode := code; stderr_text := err;
                         decode_error := "'utf-8' codec can't decode byte 0xff in position 0: invalid start byte" |};
     input_line := "yes" |}.

(** The module globals of [database.py] had it imported [Path] and [os]. *)
Definition globals_with_imports : gset string :=
  database_globals ∪ {[ "Path"; "os" ]}.

(** The same manager configured with another relational password. *)
Definition manager_with_password (pw : string) (self : DatabaseManager)
    : DatabaseManager :=
  {| settings := with_password pw (settings self); engine := engine self;
     session_factory := session_factory self; redis_client := redis_client self |}.

(** The utilities spawned by an operation started with nothing spawned. *)
Definition spawns_of {A} (m : proc A) : list spawn := spawned (m sys0).2.

(** The child processes the two operations describe to the spawner. *)
Definition backup_child (w : os_world) (self : DatabaseManager) (path : string)
    : spawn :=
  {| argv := backup_cmd (database (settings self))
               (path_div w path ("connectifyvpn_backup_" ++ strftime_now w ++ ".sql"));
     env := <["PGPASSWORD" := db_password (database (settings self))]> (environ w) |}.

Definition restore_child (w : os_world) (self : DatabaseManager) (path : string)
    : spawn :=
  {| argv := restore_cmd (database (settings self)) path;
     env := <["PGPASSWORD" := db_password (database (settings self))]> (environ w) |}.

(** Example stores and session bodies. *)
Definition empty_store : Store := {| plans := []; servers := [] |}.

Definition legacy_plan : Plan :=
  {| plan_name := "Legacy"; plan_description := "Created by hand";
     plan_type := PREMIUM; plan_price := {| float_repr := "20.0" |};
     plan_duration_days := 30; plan_device_limit := 2; plan_features := [];
     plan_is_active := true; plan_is_public := false |}.

(** Plans present, servers absent. *)
Definition plans_only_store : Store := {| plans := [legacy_plan]; servers := [] |}.

(** The backend fails the [n]-th round trip of a session. *)
Definition fail_at (n : nat) (msg : string) : faults :=
  fun i => if bool_decide (i = n) then Some msg else None.

(** A session body that adds a row, commits it itself and then raises. *)
Definition commit_then_raise : block unit :=
  add (EPlan legacy_plan);;
  commit;;
  Throw (Exception_ "boom").

(** A session body that adds a row and then raises. *)
Definition add_then_raise : block unit :=
  add (EPlan legacy_plan);;
  Throw (Exception_ "boom").

(** A relational backend that accepts every block and answers each
    statement as [reply] says. *)
Definition server_answering (reply : string -> outcome cursor) : pg_server :=
  {| on_begin := Reply (); on_execute := fun sql _ => reply sql;
     on_run_sync := fun _ => Reply (); on_commit := Reply () |}.

(** A backend on which every statement succeeds without rows, and one that
    has no [servers] relation to put an index on. *)
Definition accepting_server : pg_server := server_answering (fun _ => Reply NoRows).

(** Releasing the connections without trouble, and with a pool that fails
    to dispose. *)
Definition smooth_release : release_backend :=
  {| engine_dispose := Reply (); redis_close := Reply () |}.

Definition failing_dispose : release_backend :=
  {| engine_dispose := Fault "pool is busy"; redis_close := Reply () |}.

(** The same operating system with another line typed at the prompt. *)
Definition os_answering (line : string) : os_world :=
  {| strftime_now := "20240131_235959";
     environ := {[ "PATH" := "/usr/bin" ]};
     path_div := fun a b => a ++ "/" ++ b;
     path_exists := fun p => bool_decide (p = "/var/backups/last.dump");
     create_subprocess_exec :=
       fun _ => Reply {| returncode := 0; stderr_text := Some ""; decode_error := "" |};
     input_line := line |}.

(** A run of the script against live backends, with [line] typed at any
    prompt and the relational backend answering as [srv] does.  The
    formatter of the statistics is never consulted in these runs. *)
Definition world_of (srv : pg_server) (cachesrv : redis_backend)
    (rb : release_backend) (line : string) : Cli.world :=
  {| Cli.load_settings := inr default_settings;
     Cli.relational := srv;
     Cli.cache_backend := cachesrv;
     Cli.releasing := rb;
     Cli.os := os_answering line;
     Cli.session_faults := no_faults;
     Cli.alembic_upgrade := Reply ();
     Cli.format_megabytes := fun _ => Return "0.00" |}.

(** The state of a run whose manager went through [initialize]. *)
Definition ready_state (store : Store) : Cli.cli_state :=
  {| Cli.term := sys0; Cli.manager := ready_migration_manager;
     Cli.relation := store; Cli.sent := []; Cli.released := [] |}.

(** The state [st] with [lines] printed after what it had printed. *)
Definition printing (lines : list string) (st : Cli.cli_state) : Cli.cli_state :=
  {| Cli.term := {| spawned := spawned (Cli.term st);
                    printed := printed (Cli.term st) ++ lines |};
     Cli.manager := Cli.manager st; Cli.relation := Cli.relation st;
     Cli.sent := Cli.sent st; Cli.released := Cli.released st |}.




(** A command preserves a view of the state of the run when it leaves the
    view as it found it, however it ends. *)
Definition preserves {A B} (view : Cli.cli_state -> B) (m : Cli.cli A) : Prop :=
  forall st, view (m st).2 = view st.

(** The manager with its connections, and the log of what was released. *)
Definition connections (st : Cli.cli_state) : MigrationManager * list release :=
  (Cli.manager st, Cli.released st).

(** Secrets of an installation that forgot two of them. *)
Definition incomplete_secrets : Validate.secrets :=
  {| Validate.bot_token := "";
     Validate.toyyibpay_secret_key := "sk-live";
     Validate.toyyibpay_category_code := "";
     Validate.jwt_secret := "not-so-secret" |}.

(** Exposes the bind and return of the [result] and [proc] monads. *)
Ltac unfold_monads :=
  unfold mbind, mret, result_bind, result_ret, proc_bind, proc_ret, rbind,
    lift, raise in *.

(** Runs a session as far as the next undetermined backend answer. *)
Ltac run_session := repeat (progress (simpl; unfold session_commit)).

(** ** The connection supervisor *)

Section Supervisor.

Variable w : backends.
Variable self : DatabaseManager.

(** The relational probe never returns: it fails on the attribute of an
    unset engine, with the fault of the driver when the block cannot be
    opened, and with the refusal of its statement once the block is open. *)
Lemma pg_probe_raises :
  pg_probe (pg w) (engine self) =
    match engine self, pg_begin (pg w) with
    | None, _ => Raise (AttributeError "'NoneType' object has no attribute 'begin'")
    | Some _, Fault msg => Raise (DriverError msg)
    | Some _, Reply _ => Raise (ObjectNotExecutableError "SELECT 1")
    end.
Proof.
  unfold pg_probe, engine_begin, execute_str.
  by destruct (engine self), (pg_begin (pg w)).
Qed.

(** Neither does the relational half of the statistics, whose first
    statement is refused in the same way. *)
Lemma pg_stats_raises stats :
  pg_stats (pg w) (engine self) stats =
    match engine self, pg_begin (pg w) with
    | None, _ => Raise (AttributeError "'NoneType' object has no attribute 'begin'")
    | Some _, Fault msg => Raise (DriverError msg)
    | Some _, Reply _ =>
        Raise (ObjectNotExecutableError "SELECT pg_database_size(current_database())")
    end.
Proof.
  unfold pg_stats, engine_begin, execute_str.
  by destruct (engine self), (pg_begin (pg w)).
Qed.

(** Whatever a probe raises is an [Exception]: a driver fault, the refusal
    of a statement, or the attribute error of an unset engine or client. *)
Lemma pg_probe_raises_Exception e :
  pg_probe (pg w) (engine self) = Raise e -> is_Exception e = true.
Proof.
  rewrite pg_probe_raises.
  destruct (engine self), (pg_begin (pg w)); intros H; by simplify_eq.
Qed.

Lemma redis_probe_raises_Exception e :
  redis_probe (cache w) (redis_client self) = Raise e -> is_Exception e = true.
Proof.
  unfold redis_probe.
  destruct (redis_client self), (redis_ping (cache w)); unfold_monads; simpl;
    intros H; by simplify_eq.
Qed.


(** [health_check] returns one entry per backend, [true] exactly when the
    probe of that backend returned. *)
Lemma health_check_entries :
  health_check w self =
    Return {[ "postgres" := succeeded (pg_probe (pg w) (engine self));
              "redis" := succeeded (redis_probe (cache w) (redis_client self)) ]}.
Proof.
  unfold health_check, try_except_pass.
  destruct (pg_probe (pg w) (engine self)) as [[]|e1] eqn:Hpg;
    destruct (redis_probe (cache w) (redis_client self)) as [[]|e2] eqn:Hredis;
    unfold_monads; simpl;
    try rewrite (pg_probe_raises_Exception e1 Hpg);
    try rewrite (redis_probe_raises_Exception e2 Hredis);
    simpl; f_equal; by vm_compute.
Qed.

(** [initialize] ends as its relational probe does, with the engine and the
    session factory assigned and the cache client left as it was. *)
Lemma initialize_ends_at_relational_probe :
  let r := initialize w self in
  r.1 = match pg_begin (pg w) with
        | Reply _ => Raise (ObjectNotExecutableError "SELECT 1")
        | Fault msg => Raise (DriverError msg)
        end
  /\ is_Some (engine r.2) /\ is_Some (session_factory r.2)
  /\ redis_client r.2 = redis_client self.
Proof.
  unfold initialize, _init_postgres, pg_probe, engine_begin, execute_str. simpl.
  destruct (pg_begin (pg w)); simpl; repeat split; eauto.
Qed.

(** [_init_redis], called on its own, assigns the client before it pings
    it: the client is set whether or not the ping succeeds. *)
Lemma init_redis_assigns_before_ping :
  let r := _init_redis w self in
  is_Some (redis_client r.2) /\ r.1 = redis_probe (cache w) (redis_client r.2).
Proof. unfold _init_redis. simpl. eauto. Qed.

End Supervisor.

(** C5, at an input where the claim fails.  [health_check] never raises,
    but its relational entry is [false] whatever the relational store does:
    the probe hands a plain [str] to [conn.execute], which refuses it, and
    [except Exception] swallows the refusal.  With the relational store
    accepting connections and the cache unreachable the result is
    postgres: false, redis: false, where the claim has postgres: true. *)
Theorem health_check_reports_relational_down (w : backends) (self : DatabaseManager) :
  health_check w self =
    Return {[ "postgres" := false;
              "redis" := succeeded (redis_probe (cache w) (redis_client self)) ]}
  /\ health_check {| pg := pg_up; cache := redis_down |} probed_manager
     = Return {[ "postgres" := false; "redis" := false ]}.
Proof.
  split; [|reflexivity].
  rewrite health_check_entries, pg_probe_raises.
  by destruct (engine self), (pg_begin (pg w)).
Qed.




(** C7, at an input where the claim fails.  [initialize] never gets to the
    cache: the relational probe hands a plain [str] to [conn.execute] and
    raises, whatever the two backends do.  The run ends with the fault of
    the driver when the relational store refuses the connection, and with
    the refusal of the probe's statement when it accepts it; the engine and
    the session factory stay set, and the cache client is left as it was,
    neither constructed nor pinged.  With both backends reachable
    [initialize] therefore fails although no backend did. *)
Theorem initialize_stops_at_relational_probe (w : backends) (self : DatabaseManager) :
  let r := initialize w self in
  r.1 = match pg_begin (pg w) with
        | Reply _ => Raise (ObjectNotExecutableError "SELECT 1")
        | Fault msg => Raise (DriverError msg)
        end
  /\ is_Some (engine r.2) /\ is_Some (session_factory r.2)
  /\ redis_client r.2 = redis_client self.
Proof. apply initialize_ends_at_relational_probe. Qed.

Example initialize_with_both_backends_up :
  let r := initialize {| pg := pg_up; cache := redis_up |} (__init__ default_settings) in
  r.1 = Raise (ObjectNotExecutableError "SELECT 1")
  /\ engine r.2 <> None
  /\ redis_client r.2 = None.
Proof. by vm_compute. Qed.

(** ** Backup and restore *)

(** C3. Under the module globals of [database.py], [backup_database] raises
    [NameError] for [Path] and [restore_database] raises [NameError] for
    [os], whatever the path, the settings and the operating system; both do
    so before anything is spawned, so the process state is left as it was. *)
Theorem backup_and_restore_raise_NameError
    (w : os_world) (self : DatabaseManager) (path : string) (st : sys) :
  backup_database database_globals w self path st = (Raise (NameError "Path"), st)
  /\ restore_database database_globals w self path st = (Raise (NameError "os"), st).
Proof. split; reflexivity. Qed.

(** With [Path] and [os] bound, [backup_database] spawns the dump utility
    once and maps its exit code as intended: the path on exit code zero, an
    exception carrying the captured standard error otherwise. *)
Lemma backup_database_maps_exit_code
    (g : gset string) (w : os_world) (self : DatabaseManager) (path : string)
    (st : sys) (p : completed) :
  "Path" ∈ g -> "os" ∈ g -> "asyncio" ∈ g ->
  let filepath := path_div w path ("connectifyvpn_backup_" ++ strftime_now w ++ ".sql") in
  let child := {| argv := backup_cmd (database (settings self)) filepath;
                  env := <["PGPASSWORD" := db_password (database (settings self))]>
                           (environ w) |} in
  create_subprocess_exec w child = Reply p ->
  let st' := {| spawned := spawned st ++ [child]; printed := printed st |} in
  (returncode p = 0 ->
     backup_database g w self path st = (Return filepath, st'))
  /\ (forall text, returncode p <> 0 -> stderr_text p = Some text ->
     backup_database g w self path st
       = (Raise (Exception_ ("Backup failed: " ++ text)), st')).
Proof.
  intros HPath Hos Hasyncio filepath child Hp st'.
  unfold backup_database, resolve, run_subprocess, failure_message.
  rewrite !bool_decide_eq_true_2 by done.
  unfold_monads. simpl. fold filepath child. rewrite Hp. simpl.
  split.
  - intros H0. by rewrite bool_decide_eq_false_2 by (by intros ?).
  - intros text Hne Htext. rewrite bool_decide_eq_true_2 by done.
    by rewrite Htext.
Qed.

(** C9, at an input where the claim fails: the dump utility would exit with
    code zero, yet [backup_database] raises [NameError] without spawning it
    and returns no path; [MigrationManager.backup] reports that failure on
    the terminal. *)
Theorem backup_database_returns_no_path :
  backup_database database_globals (os_where_utility_exits 0 (Some ""))
    ready_manager "/var/backups" sys0
    = (Raise (NameError "Path"), sys0)
  /\ backup database_globals (os_where_utility_exits 0 (Some ""))
       ready_migration_manager (Some "/var/backups") sys0
    = (Return (),
       {| spawned := [];
          printed := [ "💾 Creating backup at /var/backups...";
                       "❌ Backup failed: name 'Path' is not defined" ] |}).
Proof. split; reflexivity. Qed.

(** Which utilities the two operations spawn: one child each when the
    names they use are bound, none otherwise. *)
Lemma backup_database_spawns
    (g : gset string) (w : os_world) (self : DatabaseManager) (path : string) :
  spawns_of (backup_database g w self path)
  = if bool_decide ("Path" ∈ g /\ "os" ∈ g /\ "asyncio" ∈ g)
    then [backup_child w self path] else [].
Proof.
  unfold spawns_of, backup_database, resolve, run_subprocess, failure_message.
  unfold_monads. simpl. fold (backup_child w self path).
  destruct (create_subprocess_exec w (backup_child w self path)) as [p|];
    repeat case_bool_decide; simpl; try done; try tauto;
    destruct (stderr_text p); by case_bool_decide.
Qed.

Lemma restore_database_spawns
    (g : gset string) (w : os_world) (self : DatabaseManager) (path : string) :
  spawns_of (restore_database g w self path)
  = if bool_decide ("os" ∈ g /\ "asyncio" ∈ g)
    then [restore_child w self path] else [].
Proof.
  unfold spawns_of, restore_database, resolve, run_subprocess, failure_message.
  unfold_monads. simpl. fold (restore_child w self path).
  destruct (create_subprocess_exec w (restore_child w self path)) as [p|];
    repeat case_bool_decide; simpl; try done; try tauto;
    destruct (stderr_text p); by case_bool_decide.
Qed.

(** C10, at an input where the claim fails.  Under the module globals of
    [database.py] neither operation hands the password to a process:
    [backup_database] raises at [Path], before its argument vector exists,
    and [restore_database] raises at [os.environ.copy()], the line before
    the one that sets [PGPASSWORD].  No utility is spawned, so no child
    receives the password, in its environment or otherwise. *)
Theorem password_reaches_no_process
    (w : os_world) (self : DatabaseManager) (path : string) :
  spawns_of (backup_database database_globals w self path) = []
  /\ spawns_of (restore_database database_globals w self path) = []
  /\ (backup_database database_globals (os_where_utility_exits 0 (Some ""))
        (manager_with_password "s3cret" ready_manager) "/var/backups" sys0).1
     = Raise (NameError "Path")
  /\ (restore_database database_globals (os_where_utility_exits 0 (Some ""))
        (manager_with_password "s3cret" ready_manager) "/var/backups/last.dump" sys0).1
     = Raise (NameError "os").
Proof.
  rewrite backup_database_spawns, restore_database_spawns.
  split; [|split; [|split]]; reflexivity.
Qed.

(** With the two names bound, the dump and the restore utility are each
    spawned once, with the password in the environment only. *)
Example spawned_utilities_with_imports :
  spawns_of (backup_database globals_with_imports
               (os_where_utility_exits 0 (Some "")) ready_manager "/var/backups")
  = [ {| argv := [ "pg_dump"; "-h"; "localhost"; "-p"; "5432"; "-U"; "postgres";
                   "-d"; "connectifyvpn";
                   "-f"; "/var/backups/connectifyvpn_backup_20240131_235959.sql";
                   "--format=custom"; "--verbose" ];
         env := {[ "PATH" := "/usr/bin"; "PGPASSWORD" := "s3cret" ]} |} ]
  /\ spawns_of (restore_database globals_with_imports
                  (os_where_utility_exits 0 (Some "")) ready_manager
                  "/var/backups/last.dump")
  = [ {| argv := [ "pg_restore"; "-h"; "localhost"; "-p"; "5432"; "-U"; "postgres";
                   "-d"; "connectifyvpn"; "-c"; "--verbose";
                   "/var/backups/last.dump" ];
         env := {[ "PATH" := "/usr/bin"; "PGPASSWORD" := "s3cret" ]} |} ].
Proof. split; by vm_compute. Qed.

(** C4, as the code has it.  When the path does not exist,
    [MigrationManager.restore] prints that the backup file was not found and
    returns normally: it raises nothing, asks for no confirmation and spawns
    nothing, the existence check being its first step. *)
Theorem restore_of_missing_artifact
    (g : gset string) (w : os_world) (self : MigrationManager)
    (path : string) (st : sys) :
  path_exists w path = false ->
  restore g w self path st
  = (Return (),
     {| spawned := spawned st;
        printed := printed st ++ [ "❌ Backup file not found: " ++ path ] |}).
Proof. intros Hmissing. unfold restore. by rewrite Hmissing. Qed.

Lemma restore_of_missing_artifact_witness :
  restore database_globals (os_where_utility_exits 0 (Some ""))
    ready_migration_manager "/nonexistent/path" sys0
  = (Return (),
     {| spawned := [];
        printed := [ "❌ Backup file not found: /nonexistent/path" ] |}).
Proof.
  apply (restore_of_missing_artifact database_globals
           (os_where_utility_exits 0 (Some "")) ready_migration_manager
           "/nonexistent/path" sys0).
  reflexivity.
Defined.

(** C4 as stated fails: for a path that does not exist the restore
    operation does not fail with an error, it returns normally (and nothing
    was spawned). *)
Lemma restore_of_missing_artifact_does_not_raise :
  let w := os_where_utility_exits 0 (Some "") in
  let r := restore database_globals w ready_migration_manager
             "/nonexistent/path" sys0 in
  path_exists w "/nonexistent/path" = false
  /\ r.1 = Return ()
  /\ (forall e, r.1 <> Raise e)
  /\ spawned r.2 = [].
Proof. repeat split; by vm_compute. Qed.

(** [restore_database] itself has no existence check: with its names bound
    it hands a missing path to the restore utility. *)
Example restore_database_spawns_for_missing_artifact :
  let w := os_where_utility_exits 1 (Some "could not open input file") in
  path_exists w "/nonexistent/path" = false
  /\ restore_database globals_with_imports w ready_manager "/nonexistent/path" sys0
     = (Raise (Exception_ "Restore failed: could not open input file"),
        {| spawned := [restore_child w ready_manager "/nonexistent/path"];
           printed := [] |}).
Proof. split; by vm_compute. Qed.

(** When the artifact exists and the user confirms, the restore reaches
    [restore_database], whose [NameError] it reports on the terminal. *)
Example restore_of_existing_artifact :
  restore database_globals (os_where_utility_exits 0 (Some ""))
    ready_migration_manager "/var/backups/last.dump" sys0
  = (Return (),
     {| spawned := [];
        printed := [ "🔄 Restoring from /var/backups/last.dump...";
                     "⚠️  This will OVERWRITE current data! Are you sure? (yes/no): ";
                     "❌ Restore failed: name 'os' is not defined" ] |}).
Proof. reflexivity. Qed.

(** ** Scoped sessions *)

(** A body that makes no transaction-control call of its own leaves the
    visible store and the log of such calls as they were. *)
Lemma run_no_transaction_control {A} (f : faults) (body : block A) (s : Session) :
  no_transaction_control body ->
  db (run f body s).2 = db s /\ calls (run f body s).2 = calls s.
Proof.
  revert s. induction body as [a|e|q k IH|x k IH|k IH|k IH|line k IH];
    intros s Hbody; simpl in *; try done.
  - destruct (f (round_trips s)); [done|].
    match goal with
    | |- context [run f (k ?z) ?s'] => by destruct (IH z s' (Hbody z)) as [-> ->]
    end.
  - match goal with
    | |- context [run f _ ?s'] => by destruct (IH s' Hbody) as [-> ->]
    end.
  - match goal with
    | |- context [run f _ ?s'] => by destruct (IH s' Hbody) as [-> ->]
    end.
Qed.

(** C6, as the code has it.  Take a scoped session over a fresh session
    whose body makes no commit or rollback call of its own.  If the body
    finishes, the transaction is committed: one commit call and no rollback
    when the commit goes through, the rollback following only a commit that
    itself fails.  If the body raises, no commit is made, the visible store
    is what it was before the session began, and the exception propagates;
    an [Exception] is preceded by exactly one rollback call, any other
    exception only by the closing of the session. *)
Theorem get_session_commits_or_rolls_back {A}
    (self : DatabaseManager) (f : faults) (body : block A)
    (store : Store) (lines : list string) :
  is_Some (session_factory self) ->
  no_transaction_control body ->
  let s0 := open_session store lines in
  let s1 := (run f body s0).2 in
  let r := (get_session self f body s0).1 in
  let s := (get_session self f body s0).2 in
  match (run f body s0).1 with
  | Return a =>
      match f (round_trips s1) with
      | None =>
          r = Return a /\ calls s = [CCommit; CClose]
          /\ db s = foldl (fun d x => flush x d) store (pending s1)
      | Some msg =>
          r = Raise (DriverError msg) /\ calls s = [CCommit; CRollback; CClose]
          /\ db s = store
      end
  | Raise e =>
      r = Raise e /\ db s = store
      /\ calls s = (if is_Exception e then [CRollback; CClose] else [CClose])
  end.
Proof.
  intros [sf Hsf] Hbody s0 s1 r s.
  destruct (run_no_transaction_control f body s0 Hbody) as [Hdb Hcalls].
  subst r s s1. unfold get_session. rewrite Hsf.
  destruct (run f body s0) as [[a|e] s1] eqn:Hrun; simpl in *.
  - unfold session_commit. destruct (f (round_trips s1)); simpl;
      by rewrite ?Hdb, ?Hcalls.
  - destruct (is_Exception e); simpl; by rewrite ?Hdb, ?Hcalls.
Qed.

Lemma get_session_commits_or_rolls_back_witness :
  let s := (get_session ready_manager no_faults add_then_raise
              (open_session empty_store [])) in
  s.1 = Raise (Exception_ "boom") /\ db s.2 = empty_store
  /\ calls s.2 = [CRollback; CClose].
Proof.
  apply (get_session_commits_or_rolls_back ready_manager no_faults add_then_raise
           empty_store []).
  - by eexists.
  - by vm_compute.
Defined.

(** C6 as stated fails: a body that commits what it added and then raises
    leaves its row behind.  The exception propagates after the rollback, yet
    a commit and a rollback have both occurred in the one acquisition, and
    the visible store is not what it was before the session began. *)
Lemma get_session_partial_write_persists :
  let s := (get_session ready_manager no_faults commit_then_raise
              (open_session empty_store [])) in
  s.1 = Raise (Exception_ "boom")
  /\ calls s.2 = [CCommit; CRollback; CClose]
  /\ db s.2 = {| plans := [legacy_plan]; servers := [] |}
  /\ db s.2 <> empty_store.
Proof. by vm_compute. Qed.

(** The seed body is such a body: when the count of the servers fails, the
    plans it has already committed stay. *)
Example seed_block_partial_write_persists :
  let s := (get_session ready_manager (fail_at 2 "relation servers does not exist")
              (seed_block default_settings) (open_session empty_store [])) in
  s.1 = Raise (DriverError "relation servers does not exist")
  /\ calls s.2 = [CCommit; CRollback; CClose]
  /\ plans (db s.2) = default_plans default_settings
  /\ servers (db s.2) = [].
Proof. by vm_compute. Qed.

(** ** Seeding *)

Section Seeding.

Variable context_manager : bool.
Variable self : MigrationManager.

(** Once a plan is active the seed writes nothing at all. *)
Lemma seed_skips_when_plans_exist (f : faults) (store : Store) :
  0 < count_active_plans store ->
  seeded context_manager self f store = store.
Proof.
  intros Hpos. unfold seeded, seed_database, async_with_get_session, get_session.
  destruct context_manager; [|done].
  destruct (session_factory (mm_db self)); [|done].
  simpl. destruct (f 0%nat); [done|].
  rewrite bool_decide_eq_true_2 by lia. simpl.
  unfold session_commit. simpl. by destruct (f 1%nat).
Qed.

(** A store whose last plan is active has an active plan. *)
Lemma count_active_plans_snoc (l : list Plan) (p : Plan) (sv : list Server) :
  plan_is_active p = true ->
  0 < count_active_plans {| plans := l ++ [p]; servers := sv |}.
Proof.
  intros Hp. unfold count_active_plans. simpl.
  rewrite filter_app, length_app, filter_cons_True by done. simpl. lia.
Qed.

(** Whatever the backend does, one run of the seed either leaves the store
    as it found it or leaves a store that has an active plan: the servers
    are never written before the plans are. *)
Lemma seeded_unchanged_or_has_plans (f : faults) (store : Store) :
  seeded context_manager self f store = store
  \/ 0 < count_active_plans (seeded context_manager self f store).
Proof.
  destruct (decide (0 < count_active_plans store)) as [Hpos|Hzero].
  { left. by apply seed_skips_when_plans_exist. }
  unfold seeded, seed_database, async_with_get_session, get_session.
  destruct context_manager; [|by left].
  destruct (session_factory (mm_db self)); [|by left].
  simpl. destruct (f 0%nat); [by left|].
  rewrite bool_decide_eq_false_2 by lia. simpl.
  unfold session_commit. simpl.
  destruct (f 1%nat); [by left|]. simpl.
  destruct (f 2%nat); run_session; [right; by apply count_active_plans_snoc|].
  case_bool_decide; run_session.
  - destruct (f 3%nat); run_session; [right; by apply count_active_plans_snoc|].
    destruct (f 4%nat); run_session; right; by apply count_active_plans_snoc.
  - destruct (f 3%nat); run_session; right; by apply count_active_plans_snoc.
Qed.

(** A run of the seed that returns normally leaves an active plan. *)
Lemma seed_returns_with_plans (f : faults) (store : Store) :
  (seed_database context_manager self f store).1 = Return () ->
  0 < count_active_plans (seeded context_manager self f store).
Proof.
  intros Hret.
  destruct (decide (0 < count_active_plans store)) as [Hpos|Hzero].
  { by rewrite seed_skips_when_plans_exist. }
  destruct (seeded_unchanged_or_has_plans f store) as [Hsame|Hplans]; [|done].
  exfalso. revert Hret Hsame.
  unfold seeded, seed_database, async_with_get_session, get_session.
  destruct context_manager; [|done].
  destruct (session_factory (mm_db self)); [|done].
  simpl. destruct (f 0%nat); [done|].
  rewrite bool_decide_eq_false_2 by lia. simpl.
  unfold session_commit. simpl.
  destruct (f 1%nat); [done|]. simpl.
  assert (Hne : forall l p sv, plan_is_active p = true ->
            {| plans := l ++ [p]; servers := sv |} <> store).
  { intros l p sv Hp Heq. apply Hzero. rewrite <- Heq.
    by apply count_active_plans_snoc. }
  destruct (f 2%nat); [done|].
  case_bool_decide; run_session.
  - destruct (f 3%nat); run_session; [done|].
    destruct (f 4%nat); run_session; intros _ Heq; by apply Hne in Heq.
  - destruct (f 3%nat); run_session; intros _ Heq; by apply Hne in Heq.
Qed.

End Seeding.

(** What a run of the seed writes when it is entered through a working
    context manager, no plan is active and the backend does not fail: both
    plans, and the three servers if there is no server yet. *)
Lemma seed_of_unseeded_store (self : MigrationManager) (store : Store) :
  is_Some (session_factory (mm_db self)) ->
  count_active_plans store = 0 ->
  (seed_database true self no_faults store).1 = Return ()
  /\ seeded true self no_faults store
     = {| plans := plans store ++ default_plans (mm_settings self);
          servers := if bool_decide (count_servers store = 0)
                     then servers store ++ default_servers
                     else servers store |}.
Proof.
  intros [sf Hsf] Hzero.
  unfold seeded, seed_database, async_with_get_session, get_session.
  rewrite Hsf. run_session.
  rewrite bool_decide_eq_false_2 by lia. run_session.
  unfold count_servers. simpl.
  case_bool_decide; run_session; by rewrite <- !(assoc_L (++)).
Qed.

(** C1, as the code has it.  When at least one active plan exists the seed
    inserts nothing in either group, whether or not there are servers: the
    check on the plans returns before the check on the servers is reached,
    so the plans gate the servers. *)
Theorem seed_is_gated_by_plans
    (context_manager : bool) (self : MigrationManager) (f : faults) (store : Store) :
  0 < count_active_plans store ->
  plans (seeded context_manager self f store) = plans store
  /\ servers (seeded context_manager self f store) = servers store.
Proof.
  intros Hpos. by rewrite seed_skips_when_plans_exist.
Qed.

Lemma seed_is_gated_by_plans_witness :
  0 < count_active_plans plans_only_store
  /\ count_servers plans_only_store = 0
  /\ servers (seeded true ready_migration_manager no_faults plans_only_store) = [].
Proof.
  split; [reflexivity|]. split; [reflexivity|].
  apply (seed_is_gated_by_plans true ready_migration_manager no_faults
           plans_only_store).
  reflexivity.
Defined.

(** C1 as stated fails: on a store with an active plan and no server, the
    seed returns without inserting any server, both as the method is written
    and when its session scope can be entered. *)
Lemma seed_leaves_servers_missing :
  count_active_plans plans_only_store = 1
  /\ count_servers plans_only_store = 0
  /\ length default_servers = 3%nat
  /\ servers (seeded get_session_is_context_manager ready_migration_manager
               no_faults plans_only_store) = []
  /\ seed_database true ready_migration_manager no_faults plans_only_store
     = (Return (),
        {| db := plans_only_store; pending := []; calls := [CCommit; CClose];
           round_trips := 2;
           out := [ "🌱 Seeding database with initial data...";
                    "⚠️  Database already contains data. Skipping seed." ] |}).
Proof. repeat split; by vm_compute. Qed.

(** C8. Seeding is idempotent.  On every store, with a backend that does
    not fail, a second run of the seed leaves the store of the first run
    unchanged, so it inserts no row in either group and the row counts after
    two runs are those after one.  More generally, after any run that
    returned normally, a further run inserts nothing whatever the backend
    does. *)
Theorem seeding_is_idempotent
    (context_manager : bool) (self : MigrationManager) (store : Store) :
  let once := seeded context_manager self no_faults store in
  let twice := seeded context_manager self no_faults once in
  twice = once
  /\ length (plans twice) = length (plans once)
  /\ length (servers twice) = length (servers once)
  /\ (forall f1 f2,
        (seed_database context_manager self f1 store).1 = Return () ->
        seeded context_manager self f2 (seeded context_manager self f1 store)
        = seeded context_manager self f1 store).
Proof.
  intros once twice.
  assert (Hsame : twice = once).
  { subst twice.
    destruct (seeded_unchanged_or_has_plans context_manager self no_faults store)
      as [Hstore|Hplans]; fold once in Hstore || fold once in Hplans.
    - by rewrite Hstore.
    - by apply seed_skips_when_plans_exist. }
  split; [done|]. rewrite Hsame. split; [done|]. split; [done|].
  intros f1 f2 Hret. apply seed_skips_when_plans_exist.
  by apply seed_returns_with_plans.
Qed.

Lemma seeding_is_idempotent_witness :
  seeded true ready_migration_manager (fail_at 0 "connection lost")
    (seeded true ready_migration_manager no_faults empty_store)
  = seeded true ready_migration_manager no_faults empty_store.
Proof.
  apply (seeding_is_idempotent true ready_migration_manager empty_store).
  reflexivity.
Defined.

(** Two runs on an empty store: the first inserts two plans and three
    servers, the second inserts nothing. *)
Example seeding_twice_on_empty_store :
  let once := seeded true ready_migration_manager no_faults empty_store in
  let twice := seeded true ready_migration_manager no_faults once in
  (length (plans once), length (servers once)) = (2%nat, 3%nat)
  /\ (length (plans twice), length (servers twice)) = (2%nat, 3%nat).
Proof. split; by vm_compute. Qed.

(** * Further properties *)

(** ** Scoped sessions and seeding *)

(** X2. Whatever the backend does and however the session scope is entered,
    one run of the seed leaves one of three stores: the store it found, that
    store with the two default plans appended, or, only when it found no
    server at all, that store with the default plans and the three default
    servers.  Existing rows are never changed or removed, and servers are
    never written without the plans. *)
Theorem seed_outcomes
    (context_manager : bool) (self : MigrationManager) (f : faults) (store : Store) :
  let after := seeded context_manager self f store in
  after = store
  \/ after = {| plans := plans store ++ default_plans (mm_settings self);
                servers := servers store |}
  \/ (servers store = []
      /\ after = {| plans := plans store ++ default_plans (mm_settings self);
                    servers := default_servers |}).
Proof.
  intros after. subst after.
  destruct (decide (0 < count_active_plans store)) as [Hpos|Hzero].
  { left. by apply seed_skips_when_plans_exist. }
  unfold seeded, seed_database, async_with_get_session, get_session.
  destruct context_manager; [|by left].
  destruct (session_factory (mm_db self)); [|by left].
  run_session. destruct (f 0%nat); [by left|].
  rewrite bool_decide_eq_false_2 by lia. run_session.
  destruct (f 1%nat); [by left|]. run_session.
  destruct (f 2%nat); run_session;
    [right; left; by rewrite <- !(assoc_L (++))|].
  unfold count_servers. simpl. case_bool_decide as Hservers; run_session.
  - assert (servers store = []) as Hnone by (destruct (servers store); [done|simpl in *; lia]).
    destruct (f 3%nat); run_session;
      [right; left; by rewrite <- !(assoc_L (++))|].
    destruct (f 4%nat); run_session; right; right;
      (split; [done|]); rewrite Hnone; by rewrite <- !(assoc_L (++)).
  - destruct (f 3%nat); run_session; right; left; by rewrite <- !(assoc_L (++)).
Qed.

(** X3. A run of the seed that changed the store is final: whatever
    happened in it and whatever the backend does later, no further run
    inserts anything.  In particular a run that committed the plans and then
    failed before the servers leaves the servers unseeded for good. *)
Theorem seed_changed_store_is_final
    (context_manager : bool) (self : MigrationManager) (f1 f2 : faults)
    (store : Store) :
  seeded context_manager self f1 store <> store ->
  seeded context_manager self f2 (seeded context_manager self f1 store)
  = seeded context_manager self f1 store.
Proof.
  intros Hchanged. apply seed_skips_when_plans_exist.
  by destruct (seeded_unchanged_or_has_plans context_manager self f1 store).
Qed.

Lemma seed_changed_store_is_final_witness :
  let interrupted :=
    seeded true ready_migration_manager (fail_at 2 "connection lost") empty_store in
  servers interrupted = []
  /\ seeded true ready_migration_manager no_faults interrupted = interrupted.
Proof.
  split; [reflexivity|].
  apply (seed_changed_store_is_final true ready_migration_manager
           (fail_at 2 "connection lost") no_faults empty_store).
  by vm_compute.
Defined.

(** ** Raw queries *)










(** X6. [execute_raw_query] never returns rows and never sends its
    statement: it hands the query to [conn.execute] as a plain [str], which
    refuses it.  With an engine and a backend that lets the block open, the
    refusal is raised and the block is rolled back; otherwise the call
    raises before the block is open.  The two utilities built on it
    therefore fail for every table, whatever the backend holds. *)
Theorem raw_queries_are_never_sent
    (srv : pg_server) (self : DatabaseManager) (query : string)
    (params : option (gmap string pyval)) (table : string) (sent : list pg_event) :
  execute_raw_query srv self query params sent =
    match engine self, on_begin srv with
    | None, _ =>
        (Raise (AttributeError "'NoneType' object has no attribute 'begin'"), sent)
    | Some _, Fault msg => (Raise (DriverError msg), (sent ++ [EvBegin])%list)
    | Some _, Reply _ =>
        (Raise (ObjectNotExecutableError query), (sent ++ [EvBegin; EvRollback])%list)
    end
  /\ (exists e, (table_exists srv self table sent).1 = inl (Propagated e))
  /\ (exists e, (get_table_size srv self table sent).1 = inl (Propagated e)).
Proof.
  assert (Hraw : forall query params,
    execute_raw_query srv self query params sent =
      match engine self, on_begin srv with
      | None, _ =>
          (Raise (AttributeError "'NoneType' object has no attribute 'begin'"), sent)
      | Some _, Fault msg => (Raise (DriverError msg), (sent ++ [EvBegin])%list)
      | Some _, Reply _ =>
          (Raise (ObjectNotExecutableError query), (sent ++ [EvBegin; EvRollback])%list)
      end).
  { intros q ps.
    unfold execute_raw_query, begin_block, conn_execute_str, conn_lift, execute_str.
    destruct (engine self) as [eng|]; simpl; [|done].
    destruct (on_begin srv) as [[]|msg]; simpl; [|done].
    unfold mbind, conn_bind. simpl. by rewrite <- (assoc_L (++)). }
  split; [apply Hraw|].
  unfold table_exists, get_table_size. rewrite !Hraw.
  destruct (engine self), (on_begin srv); simpl; split; by eexists.
Qed.

(** ** Connections: initialization and release *)

(** X9. After [initialize] on a freshly constructed manager, whatever the
    backends did, [close] disposes the engine and closes nothing else: the
    cache client was never constructed.  [close] ends as the disposal of
    the engine does. *)
Theorem close_after_initialize (w : backends) (rb : release_backend) (s : Settings) :
  let self' := (initialize w (__init__ s)).2 in
  exists e, engine self' = Some e
  /\ close rb self' [] = (await (engine_dispose rb), [Disposed e]).
Proof.
  unfold initialize, _init_postgres, pg_probe, engine_begin, execute_str. simpl.
  destruct (pg_begin (pg w)); simpl; eexists; (split; [reflexivity|]);
    unfold close; simpl; by destruct (engine_dispose rb) as [[]|].
Qed.

(** A pool that fails to dispose makes [close] raise; on a manager whose
    cache client is set, the client is then left open. *)
Example close_with_failing_dispose :
  (exists e, close failing_dispose ready_manager []
             = (Raise (DriverError "pool is busy"), [Disposed e]))
  /\ (exists e, close failing_dispose probed_manager []
               = (Raise (DriverError "pool is busy"), [Disposed e]))
  /\ (exists e c, close smooth_release probed_manager []
                 = (Return (), [Disposed e; ClientClosed c])).
Proof. split; [by eexists|split; [by eexists|by eexists _, _]]. Qed.

(** ** Backup and restore at the command line *)

(** Whatever [backup_database] raises is an [Exception]. *)
Lemma backup_database_raises_Exception
    (g : gset string) (w : os_world) (self : DatabaseManager) (path : string)
    (st : sys) (e : exn) :
  (backup_database g w self path st).1 = Raise e -> is_Exception e = true.
Proof.
  unfold backup_database, resolve, run_subprocess, failure_message.
  unfold_monads. simpl.
  repeat case_bool_decide; simpl; try (by intros ?; simplify_eq).
  destruct (create_subprocess_exec w _) as [p|]; simpl;
    try (by intros ?; simplify_eq).
  case_bool_decide; simpl; try (by intros ?; simplify_eq).
  destruct (stderr_text p); simpl; by intros ?; simplify_eq.
Qed.

(** X10. [MigrationManager.backup] never raises and returns nothing: every
    failure of the operation underneath, the unbound name of the module as
    written, a refused spawn and a non-zero exit code included, ends as a
    printed line, and [backup] prints exactly two lines whether it succeeded
    or not.  Its caller cannot tell a failed backup from a successful one. *)
Theorem backup_never_raises
    (g : gset string) (w : os_world) (self : MigrationManager)
    (target : option string) (st : sys) :
  (backup g w self target st).1 = Return ()
  /\ length (printed (backup g w self target st).2) = (length (printed st) + 2)%nat.
Proof.
  unfold backup, try_except, print. unfold_monads. simpl.
  match goal with
  | |- context [backup_database g w ?m ?p ?s] =>
      pose proof (backup_database_raises_Exception g w m p s) as Hexn;
      assert (printed (backup_database g w m p s).2 = printed s) as Hprinted
  end.
  { unfold backup_database, resolve, run_subprocess, failure_message.
    unfold_monads. simpl. repeat case_bool_decide; simpl; try done.
    destruct (create_subprocess_exec w _) as [p|]; simpl; try done.
    case_bool_decide; simpl; try done. by destruct (stderr_text p). }
  match goal with
  | |- context [backup_database g w ?m ?p ?s] =>
      destruct (backup_database g w m p s) as [[file|e] st']; simpl in *
  end.
  - split; [done|].
    rewrite length_app, Hprinted. simpl. rewrite length_app. simpl. lia.
  - rewrite (Hexn e eq_refl). simpl. split; [done|].
    rewrite length_app, Hprinted. simpl. rewrite length_app. simpl. lia.
Qed.

(** X11. Without a confirmation, [restore] touches nothing: unless the
    line read from the terminal lowercases to [yes], it returns without
    spawning anything, whether or not the artifact exists. *)
Theorem restore_needs_confirmation
    (g : gset string) (w : os_world) (self : MigrationManager)
    (path : string) (st : sys) :
  lower (input_line w) <> "yes" ->
  (restore g w self path st).1 = Return ()
  /\ spawned (restore g w self path st).2 = spawned st.
Proof.
  intros Hno. unfold restore, print. unfold_monads.
  destruct (path_exists w path); simpl; [|done].
  by rewrite bool_decide_eq_true_2.
Qed.

Lemma restore_needs_confirmation_witness :
  let r := restore globals_with_imports (os_answering "no")
             ready_migration_manager "/var/backups/last.dump" sys0 in
  r.1 = Return () /\ spawned r.2 = [].
Proof.
  apply (restore_needs_confirmation globals_with_imports (os_answering "no")
           ready_migration_manager "/var/backups/last.dump" sys0).
  by vm_compute.
Defined.

(** With the confirmation, and the names of [database.py] bound, the same
    call spawns the restore utility. *)
Example restore_after_confirmation :
  spawned (restore globals_with_imports (os_answering "YES")
             ready_migration_manager "/var/backups/last.dump" sys0).2
  = [restore_child (os_answering "YES") ready_manager "/var/backups/last.dump"].
Proof. by vm_compute. Qed.

(** ** The commands of the script *)

(** Reading a health report of the two backends. *)
Lemma health_report_read (pg_ok redis_ok : bool) :
  let health : gmap string bool := {[ "postgres" := pg_ok; "redis" := redis_ok ]} in
  Cli.healthy health "postgres" = pg_ok
  /\ Cli.healthy health "redis" = redis_ok
  /\ Cli.all_values health = pg_ok && redis_ok.
Proof. destruct pg_ok, redis_ok; by vm_compute. Qed.

(** X12. [check_connection] never raises.  It prints its heading and one
    line per backend, telling for each whether its probe succeeded, and it
    returns true exactly when both probes succeeded. *)
Theorem check_connection_reports (W : Cli.world) (st : Cli.cli_state) :
  let pg_ok := succeeded (pg_probe (backend_of (Cli.relational W))
                            (engine (mm_db (Cli.manager st)))) in
  let redis_ok := succeeded (redis_probe (Cli.cache_backend W)
                               (redis_client (mm_db (Cli.manager st)))) in
  Cli.check_connection W st
  = (Return (pg_ok && redis_ok),
     printing [ "🔍 Checking database connection...";
                if pg_ok then "✅ PostgreSQL connection successful" else "❌ PostgreSQL connection failed";
                if redis_ok then "✅ Redis connection successful" else "❌ Redis connection failed" ] st).
Proof.
  simpl.
  set (pg_ok := succeeded (pg_probe _ _)).
  set (redis_ok := succeeded (redis_probe _ _)).
  destruct (health_report_read pg_ok redis_ok) as (Hpg & Hredis & Hall).
  unfold Cli.check_connection, Cli.say, Cli.on_term, print, printing.
  unfold mbind, Cli.cli_bind, mret, Cli.cli_ret, lift.
  cbn -[Cli.healthy Cli.all_values health_check].
  rewrite health_check_entries. unfold Cli.backends_of.
  cbn -[Cli.healthy Cli.all_values health_check].
  fold pg_ok redis_ok. rewrite Hpg, Hredis, Hall.
  clearbody pg_ok redis_ok. clear Hpg Hredis Hall.
  destruct pg_ok, redis_ok; simpl; by rewrite <- !(assoc_L (++)).
Qed.

(** X13. Without a confirmation, [drop_tables] touches nothing: unless the
    line read from the terminal lowercases to [yes], it prints that the
    operation was cancelled and sends nothing to the relational backend. *)
Theorem drop_tables_needs_confirmation (W : Cli.world) (st : Cli.cli_state) :
  lower (input_line (Cli.os W)) <> "yes" ->
  Cli.drop_tables W st
  = (Return (),
     printing [ "⚠️  This will DELETE ALL DATA! Are you sure? (yes/no): "; "❌ Operation cancelled" ] st).
Proof.
  intros Hno. unfold Cli.drop_tables.
  rewrite bool_decide_eq_false_2 by done.
  unfold Cli.say, Cli.on_term, print, printing.
  unfold mbind, Cli.cli_bind, mret, Cli.cli_ret. simpl.
  by rewrite <- !(assoc_L (++)).
Qed.

Lemma drop_tables_needs_confirmation_witness :
  Cli.sent (Cli.drop_tables
              (world_of accepting_server redis_up smooth_release "y")
              (ready_state plans_only_store)).2 = [].
Proof.
  rewrite (drop_tables_needs_confirmation
             (world_of accepting_server redis_up smooth_release "y")
             (ready_state plans_only_store)).
  - reflexivity.
  - by vm_compute.
Defined.

(** With the confirmation the drop is sent, in a block of its own. *)
Example drop_tables_after_confirmation :
  Cli.sent (Cli.drop_tables
              (world_of accepting_server redis_up smooth_release "Yes")
              (ready_state plans_only_store)).2
  = [EvBegin; EvRunSync DropAll; EvCommit].
Proof. by vm_compute. Qed.




(** ** The script as a whole *)

Section Preservation.

Context {B : Type} (view : Cli.cli_state -> B).

Lemma preserves_bind {A C} (m : Cli.cli A) (k : A -> Cli.cli C) :
  preserves view m -> (forall a, preserves view (k a)) ->
  preserves view (m ≫= k).
Proof.
  intros Hm Hk st. unfold mbind, Cli.cli_bind.
  specialize (Hm st). destruct (m st) as [[a|e] st1]; simpl in *; [|done].
  by rewrite Hk.
Qed.

Lemma preserves_sys_exit {A} (code : Z) : preserves view (@Cli.sys_exit A code).
Proof. by intros st. Qed.

Lemma preserves_ret {A} (a : A) : preserves view (mret a : Cli.cli A).
Proof. by intros st. Qed.

End Preservation.

(** The commands that work on the terminal or on the connection leave the
    manager and the release log alone. *)
Lemma on_term_preserves {A} (m : MigrationManager -> proc A) :
  preserves connections (Cli.on_term m).
Proof.
  intros st; unfold Cli.on_term;
    by destruct (m (Cli.manager st) (Cli.term st)).
Qed.

Lemma on_conn_preserves {A} (m : DatabaseManager -> conn A) :
  preserves connections (Cli.on_conn m).
Proof.
  intros st; unfold Cli.on_conn;
    by destruct (m (mm_db (Cli.manager st)) (Cli.sent st)).
Qed.

Lemma seed_preserves_connections (context_manager : bool) (W : Cli.world) :
  preserves connections (Cli.seed_database context_manager W).
Proof.
  intros st. unfold Cli.seed_database.
  by destruct (Migrate.seed_database _ _ _ _).
Qed.

(** Proves that a command built from the primitives preserves a view. *)
Ltac preserve :=
  repeat first
    [ apply preserves_bind; [|intros ?]
    | apply preserves_sys_exit
    | apply preserves_ret
    | apply on_term_preserves
    | apply on_conn_preserves
    | apply seed_preserves_connections
    | case_bool_decide
    | match goal with
      | |- preserves _ (if ?b then _ else _) => destruct b
      | |- preserves _ (match ?l with [] => _ | _ :: _ => _ end) => destruct l
      end ].

Lemma dispatch_preserves_connections (context_manager : bool) (g : gset string)
    (W : Cli.world) (command : string) (rest : list string) :
  preserves connections (Cli.dispatch context_manager g W command rest).
Proof.
  unfold Cli.dispatch, Cli.check_connection, Cli.create_tables, Cli.drop_tables,
    Cli.create_indexes, Cli.migrate, Cli.get_stats, Cli.say.
  preserve.
Qed.

(** [initialize] sets the engine that the settings describe, however it
    ends, and releases nothing. *)
Lemma initialize_sets_engine (W : Cli.world) (st : Cli.cli_state) :
  is_Some (engine (mm_db (Cli.manager (Cli.initialize W st).2)))
  /\ Cli.released (Cli.initialize W st).2 = Cli.released st.
Proof.
  unfold Cli.initialize, initialize, _init_postgres, _init_redis. simpl.
  destruct (pg_probe _ _) as [[]|e]; simpl; by repeat split.
Qed.

(** X15. Once the manager has been constructed, every run of the script
    releases the relational engine before it ends, whatever the command is,
    known or not, and whether the initialization or the command failed or
    not: the disposal of the engine is the first thing the cleanup does. *)
Theorem main_always_disposes
    (context_manager : bool) (g : gset string) (W : Cli.world)
    (script command : string) (rest : list string) (store : Store)
    (settings : Settings) :
  Cli.load_settings W = inr settings ->
  exists st e,
    (Cli.main context_manager g W (script :: command :: rest) store).2 = Cli.Ran st
    /\ engine (mm_db (Cli.manager st)) = Some e
    /\ head (Cli.released st) = Some (Disposed e).
Proof.
  intros Hload. unfold Cli.main. rewrite Hload. unfold Cli.try_finally.
  set (st0 := {| Cli.term := sys0; Cli.manager := Cli.__init__ settings;
                 Cli.relation := store; Cli.sent := []; Cli.released := [] |}).
  assert (exists e,
    engine (mm_db (Cli.manager
      ((Cli.initialize W ≫= fun _ =>
        Cli.dispatch context_manager g W command rest) st0).2)) = Some e
    /\ Cli.released
         ((Cli.initialize W ≫= fun _ =>
           Cli.dispatch context_manager g W command rest) st0).2 = [])
    as (e & Hengine & Hreleased).
  { unfold mbind, Cli.cli_bind.
    destruct (initialize_sets_engine W st0) as ([e He] & Hrel).
    destruct (Cli.initialize W st0) as [[[]|err] st1]; simpl in *.
    - pose proof (dispatch_preserves_connections context_manager g W command rest st1)
        as Hkeep.
      unfold connections in Hkeep. injection Hkeep as Hmanager Hlog.
      exists e. by rewrite Hmanager, Hlog.
    - by exists e. }
  destruct ((Cli.initialize W ≫= _) st0) as [r st1]. simpl in *.
  unfold Cli.cleanup, close. rewrite Hengine, Hreleased. simpl.
  destruct (engine_dispose (Cli.releasing W)) as [[]|msg]; simpl.
  - destruct (redis_client (mm_db (Cli.manager st1))) as [c|]; simpl.
    + destruct (redis_close (Cli.releasing W)) as [[]|msg]; simpl;
        by eexists _, e.
    + by eexists _, e.
  - by eexists _, e.
Qed.

Lemma main_always_disposes_witness :
  exists st e,
    (Cli.main get_session_is_context_manager database_globals
       (world_of accepting_server redis_down smooth_release "no")
       ["migrate.py"; "frobnicate"] empty_store).2 = Cli.Ran st
    /\ engine (mm_db (Cli.manager st)) = Some e
    /\ head (Cli.released st) = Some (Disposed e).
Proof.
  apply (main_always_disposes get_session_is_context_manager database_globals
           (world_of accepting_server redis_down smooth_release "no")
           "migrate.py" "frobnicate" [] empty_store default_settings).
  reflexivity.
Defined.

(** X16. As the script is written, no command ever runs: every run ends
    with exit status 1, whatever the command line, the backends and the
    typed answers.  Without a command the usage is printed; with one, either
    the settings are refused or the relational probe of the initialization
    raises before the command is looked at, and nothing is printed or
    spawned.  When the relational store accepts the connection and the
    engine is disposed without trouble, the run ends with the refusal of the
    probe's statement uncaught. *)
Theorem main_never_runs_a_command
    (context_manager : bool) (g : gset string) (W : Cli.world)
    (sys_argv : list string) (store : Store) :
  Cli.exit_status (Cli.main context_manager g W sys_argv store).1 = 1
  /\ (forall script command rest settings,
        sys_argv = script :: command :: rest ->
        Cli.load_settings W = inr settings ->
        exists st,
          (Cli.main context_manager g W sys_argv store).2 = Cli.Ran st
          /\ Cli.term st = sys0
          /\ (on_begin (Cli.relational W) = Reply () ->
              engine_dispose (Cli.releasing W) = Reply () ->
              (Cli.main context_manager g W sys_argv store).1
              = Cli.Uncaught (ObjectNotExecutableError "SELECT 1"))).
Proof.
  assert (Hrun : forall script command rest settings,
    Cli.load_settings W = inr settings ->
    exists st e,
      Cli.main context_manager g W (script :: command :: rest) store
      = (Cli.Uncaught e, Cli.Ran st)
      /\ Cli.term st = sys0
      /\ (on_begin (Cli.relational W) = Reply () ->
          engine_dispose (Cli.releasing W) = Reply () ->
          e = ObjectNotExecutableError "SELECT 1")).
  { intros script command rest settings Hload.
    unfold Cli.main. rewrite Hload. unfold Cli.try_finally.
    unfold mbind, Cli.cli_bind, Cli.initialize, Cli.cleanup, Cli.__init__.
    cbn -[initialize close].
    destruct (initialize_ends_at_relational_probe (Cli.backends_of W)
                (__init__ settings)) as (Hr & [eng Heng] & _ & Hclient).
    destruct (initialize (Cli.backends_of W) (__init__ settings)) as [r db'].
    simpl in Hr, Heng, Hclient. subst r.
    unfold close.
    destruct (on_begin (Cli.relational W)) as [[]|msg]; simpl;
      rewrite Heng, Hclient;
      destruct (engine_dispose (Cli.releasing W)) as [[]|msg']; simpl;
      eexists _, _; (split; [reflexivity|]); (split; [reflexivity|]);
      intros ? ?; by simplify_eq. }
  split.
  - destruct sys_argv as [|script [|command rest]]; [done|done|].
    destruct (Cli.load_settings W) as [msg|settings] eqn:Hload.
    + unfold Cli.main. by rewrite Hload.
    + destruct (Hrun script command rest settings eq_refl) as (st & e & Hmain & _).
      by rewrite Hmain.
  - intros script command rest settings -> Hload.
    destruct (Hrun script command rest settings Hload)
      as (st & e & Hmain & Hterm & He).
    rewrite Hmain. exists st. split; [done|]. split; [done|].
    intros Hbegin Hdispose. simpl. by rewrite (He Hbegin Hdispose).
Qed.

Lemma main_never_runs_a_command_witness :
  let W := world_of accepting_server redis_up smooth_release "no" in
  exists st,
    (Cli.main get_session_is_context_manager database_globals W
       ["migrate.py"; "check"] empty_store).2 = Cli.Ran st
    /\ Cli.term st = sys0
    /\ (Cli.main get_session_is_context_manager database_globals W
          ["migrate.py"; "check"] empty_store).1
       = Cli.Uncaught (ObjectNotExecutableError "SELECT 1").
Proof.
  destruct (proj2 (main_never_runs_a_command get_session_is_context_manager
                     database_globals
                     (world_of accepting_server redis_up smooth_release "no")
                     ["migrate.py"; "check"] empty_store)
              "migrate.py" "check" [] default_settings eq_refl eq_refl)
    as (st & Hran & Hterm & Hending).
  exists st. split; [exact Hran|]. split; [exact Hterm|].
  apply Hending; reflexivity.
Defined.

(** What such a run leaves behind: a traceback, the engine disposed, and
    no cache client to close. *)
Example main_backup_as_written :
  match Cli.main get_session_is_context_manager database_globals
          (world_of accepting_server redis_up smooth_release "yes")
          ["migrate.py"; "backup"; "/var/backups"] empty_store with
  | (ending, Cli.Ran st) =>
      ending = Cli.Uncaught (ObjectNotExecutableError "SELECT 1")
      /\ Cli.term st = sys0
      /\ length (Cli.released st) = 1%nat
  | (_, Cli.Unstarted _) => False
  end.
Proof. by vm_compute. Qed.

(** ** Required settings *)

(** The errors collected by [validate] are the messages of the required
    fields that are empty, in the order of the fields. *)
Lemma validate_collects (x : Validate.secrets) (s : Settings) :
  Validate.validate x s
  = let errors := (filter (fun field => field.1 = "") (Validate.required_fields x s)).*2 in
    if bool_decide (errors = []) then None
    else Some ("Configuration errors: " ++ Validate.join ", " errors).
Proof.
  unfold Validate.validate, Validate.required_fields, Validate.require.
  destruct (decide (Validate.bot_token x = "")),
    (decide (Validate.toyyibpay_secret_key x = "")),
    (decide (Validate.toyyibpay_category_code x = "")),
    (decide (Validate.jwt_secret x = "")),
    (decide (db_password (database s) = ""));
    repeat match goal with
           | H : ?P |- context [bool_decide ?P] =>
               rewrite (bool_decide_eq_true_2 P H)
           | H : ¬ ?P |- context [bool_decide ?P] =>
               rewrite (bool_decide_eq_false_2 P H)
           end;
    repeat first [ rewrite filter_cons_True by done
                 | rewrite filter_cons_False by done ];
    rewrite filter_nil; reflexivity.
Qed.

(** X19. [validate] accepts the settings exactly when none of the five
    required values is empty.  When it refuses them, its message names every
    empty value, not only the first: it is the heading followed by the
    messages of all the empty fields, in the order of the fields, joined by
    a comma and a space. *)
Theorem validate_reports_every_missing_field (x : Validate.secrets) (s : Settings) :
  let missing := (filter (fun field => field.1 = "") (Validate.required_fields x s)).*2 in
  (Validate.validate x s = None
   <-> Validate.bot_token x <> "" /\ Validate.toyyibpay_secret_key x <> ""
       /\ Validate.toyyibpay_category_code x <> "" /\ Validate.jwt_secret x <> ""
       /\ db_password (database s) <> "")
  /\ (missing <> [] ->
      Validate.validate x s
      = Some ("Configuration errors: " ++ Validate.join ", " missing)).
Proof.
  intros missing. split.
  - unfold Validate.validate, Validate.require.
    repeat case_bool_decide; simpl; simplify_eq; split; try done;
      try (by intros (? & ? & ? & ? & ?)); try (by intros _; repeat split).
  - intros Hmissing. rewrite validate_collects. fold missing. simpl.
    by rewrite bool_decide_eq_false_2.
Qed.

Lemma validate_reports_every_missing_field_witness :
  Validate.validate incomplete_secrets default_settings
  = Some "Configuration errors: BOT_TOKEN is required, TOYYIBPAY_CATEGORY_CODE is required".
Proof.
  apply (proj2 (validate_reports_every_missing_field incomplete_secrets
                  default_settings)).
  by vm_compute.
Defined.

(** ** Statistics and seeding *)

(** X20. The [stats] command never prints a statistic: the relational
    half of [get_stats] raises before any figure is gathered, so the command
    prints its heading and ends with that error, whatever the backends
    report. *)
Theorem get_stats_prints_heading_only (W : Cli.world) (st : Cli.cli_state) :
  exists e,
    pg_stats (backend_of (Cli.relational W)) (engine (mm_db (Cli.manager st))) ∅
      = Raise e
    /\ Cli.get_stats W st
       = (Raise e, printing [ "📊 Getting database statistics..." ] st).
Proof.
  assert (exists e,
    pg_stats (backend_of (Cli.relational W)) (engine (mm_db (Cli.manager st))) ∅
    = Raise e) as [e He].
  { pose proof (pg_stats_raises (Cli.backends_of W) (mm_db (Cli.manager st)) ∅) as Hpg.
    simpl in Hpg. rewrite Hpg.
    destruct (engine (mm_db (Cli.manager st))), (on_begin (Cli.relational W));
      by eexists. }
  exists e. split; [done|].
  assert (Database.get_stats (Cli.backends_of W) (mm_db (Cli.manager st)) = Raise e)
    as Hstats.
  { unfold Database.get_stats, Cli.backends_of. simpl. by rewrite He. }
  unfold Cli.get_stats, Cli.say, Cli.on_term, print, printing.
  unfold mbind, Cli.cli_bind, mret, Cli.cli_ret, lift.
  cbn -[Database.get_stats]. by rewrite Hstats.
Qed.

(** X21. Entered through a working session scope, on a store without an
    active plan and with a backend that does not fail, the seed returns
    normally having appended the two default plans, and the three default
    servers exactly when the store had no server. *)
Theorem seed_fills_unseeded_store (self : MigrationManager) (store : Store) :
  is_Some (session_factory (mm_db self)) ->
  count_active_plans store = 0 ->
  (Migrate.seed_database true self no_faults store).1 = Return ()
  /\ plans (seeded true self no_faults store)
     = (plans store ++ default_plans (mm_settings self))%list
  /\ servers (seeded true self no_faults store)
     = (if bool_decide (count_servers store = 0)
        then servers store ++ default_servers else servers store)%list.
Proof.
  intros Hfactory Hzero.
  destruct (seed_of_unseeded_store self store Hfactory Hzero) as [Hreturn ->].
  done.
Qed.

Lemma seed_fills_unseeded_store_witness :
  (Migrate.seed_database true ready_migration_manager no_faults empty_store).1
    = Return ()
  /\ plans (seeded true ready_migration_manager no_faults empty_store)
     = default_plans default_settings
  /\ servers (seeded true ready_migration_manager no_faults empty_store)
     = default_servers.
Proof.
  apply (seed_fills_unseeded_store ready_migration_manager empty_store).
  - by eexists.
  - reflexivity.
Defined.
